(** * huh: navigation and selection state machines

    A shallow embedding of the form engine's state transitions:
    the multi-select field ([field_multiselect.go]), the select field
    ([field_select.go]), the text field and the group that pages through
    its fields.

    Conventions.
    - Go [int] values are cursors, offsets, heights and slice lengths; they
      are modelled as [Z] (no operation of the modelled code gets near the
      64-bit range on such values).
    - A Go [error] is [option string]: [None] is [nil], [Some msg] carries
      the message.
    - A [tea.Cmd] is the list of atomic commands it stands for: [nil] is the
      empty list and [tea.Batch] is concatenation.
    - A Go index expression that can panic makes the enclosing function
      return [option]; [None] is the panic.
    - Go leaves the iteration order of [range] over a map unspecified.  Every
      function that ranges over the selection map takes the order of that
      iteration as an explicit argument. *)

From Stdlib Require Import ZArith Lia Bool Ascii String.
From stdpp Require Import gmap strings list.

Local Open Scope Z_scope.

Definition error : Type := option string.

(** [len(s)] of a Go slice. *)
Definition len {A : Type} (l : list A) : Z := Z.of_nat (length l).

(** [s[i]] of a Go slice; [None] is the out-of-range panic. *)
Definition index {A : Type} (l : list A) (i : Z) : option A :=
  if i <? 0 then None else l !! Z.to_nat i.
Global Arguments index : simpl never.

(** Modelled from the spec: [clamp] lives in the package's [clamp.go], which
    is not among the sources; "the cursor is clamped into range". *)
Definition clamp (n low high : Z) : Z :=
  let '(low, high) := if high <? low then (high, low) else (low, high) in
  Z.min high (Z.max low n).

(** ** Messages and commands *)

(** The commands a field or a group hands back to the runtime. *)
Inductive Cmd : Type :=
| CmdNextField                      (* nextField / NextField *)
| CmdPrevField                      (* prevField / PrevField *)
| CmdNextGroup                      (* nextGroup *)
| CmdPrevGroup                      (* prevGroup *)
| CmdEvalTitle (id hash : Z)        (* closure returning updateTitleMsg *)
| CmdEvalDescription (id hash : Z)  (* closure returning updateDescriptionMsg *)
| CmdEvalOptions (id hash : Z)      (* closure returning updateOptionsMsg *)
| CmdSpinnerTick
| CmdBlink                          (* textinput / textarea cursor blink *)
| CmdExternal.                      (* anything a text component schedules *)

(** ** The viewport component *)

Module viewport.

(** Modelled from the spec: the scrolling viewport is the external
    [bubbles/viewport] component, not among the sources.  Only the state
    the fields read is kept: the offset, the height and the number of
    content lines.  The offset always stays inside
    [0 .. max 0 (lines - Height)] (the component clamps with a [clamp] of
    its own, the same function as the package's); top and bottom "snap the
    viewport to the corresponding extreme". *)
Record Model : Type := mk {
  YOffset : Z;
  Height : Z;
  lines : Z          (* len(m.lines) *)
}.

Definition zero : Model := mk 0 0 0.

Definition maxYOffset (m : Model) : Z := Z.max 0 (lines m - Height m).

Definition AtTop (m : Model) : bool := YOffset m <=? 0.

Definition AtBottom (m : Model) : bool := maxYOffset m <=? YOffset m.

Definition SetYOffset (n : Z) (m : Model) : Model :=
  mk (clamp n 0 (maxYOffset m)) (Height m) (lines m).

Definition SetHeight (h : Z) (m : Model) : Model :=
  mk (YOffset m) h (lines m).

Definition GotoTop (m : Model) : Model :=
  if AtTop m then m else SetYOffset 0 m.

Definition GotoBottom (m : Model) : Model :=
  SetYOffset (maxYOffset m) m.

(** [SetContent] with a content of [n] lines. *)
Definition SetContent (n : Z) (m : Model) : Model :=
  let m' := mk (YOffset m) (Height m) n in
  if n - 1 <? YOffset m' then GotoBottom m' else m'.

Definition LineDown (n : Z) (m : Model) : Model :=
  if AtBottom m || (n =? 0) || (lines m =? 0) then m
  else SetYOffset (YOffset m + n) m.

Definition LineUp (n : Z) (m : Model) : Model :=
  if AtTop m || (n =? 0) || (lines m =? 0) then m
  else SetYOffset (YOffset m - n) m.

Definition HalfViewDown (m : Model) : Model :=
  if AtBottom m then m else LineDown (Z.quot (Height m) 2) m.

Definition HalfViewUp (m : Model) : Model :=
  if AtTop m then m else LineUp (Z.quot (Height m) 2) m.

End viewport.

(** ** Key bindings *)

Module key.

(** Modelled from the spec: [key.Binding] and [key.Matches] belong to the
    external [bubbles/key] package: a binding is a list of key names and
    can be disabled; a key message matches when its name is one of the
    keys of an enabled binding. *)
Record Binding : Type := mk {
  keys : list string;
  disabled : bool
}.

Definition zero : Binding := mk [] false.

Definition NewBinding (ks : list string) : Binding := mk ks false.

Definition SetEnabled (v : bool) (b : Binding) : Binding :=
  mk (keys b) (negb v).

Definition Enabled (b : Binding) : bool :=
  negb (disabled b) && negb (bool_decide (keys b = [])).

Definition Matches (k : string) (bs : list Binding) : bool :=
  existsb (fun b => existsb (fun v => bool_decide (k = v) && Enabled b) (keys b)) bs.
Global Arguments Matches : simpl never.

End key.

(** ** Text components *)

Module textinput.

(** Modelled from the spec: the filter is an external [bubbles/textinput];
    only its text and focus flag are kept.  How a message edits the text
    is left to the component (see [Update] as a section variable of the
    multi-select). *)
Record Model : Type := mk {
  value : string;
  focus : bool
}.

Definition New : Model := mk "" false.
Definition Value (m : Model) : string := value m.
Definition SetValue (s : string) (m : Model) : Model := mk s (focus m).
Definition Focus (m : Model) : Model * list Cmd := (mk (value m) true, [CmdBlink]).
Definition Blur (m : Model) : Model := mk (value m) false.

End textinput.

(** ** Options *)

Module Option.
Section Option.
Context {T : Type}.

(** Modelled from the spec: [Option[T]] is declared in [option.go], not
    among the sources: "a (display-key, value, pre-selected-flag)
    triple". *)
Record t : Type := mk {
  Key : string;
  Value : T;
  selected : bool
}.

Definition NewOption (k : string) (v : T) : t := mk k v false.

Definition Selected (b : bool) (o : t) : t := mk (Key o) (Value o) b.

Definition String (o : t) : string := Key o.

End Option.
Global Arguments t : clear implicits.
End Option.

(** ** Deferred values *)

Module Eval.
Section Eval.
Context {A : Type}.

(** Modelled from the spec: [Eval[T]] is declared in [eval.go], not among
    the sources.  "The title, description, and options of a field may each
    be either a static value or a function of externally supplied
    bindings"; "function results are cached per-hash".  The function and
    the bindings live outside the model: [fn] records whether a function
    is set, and the hash of the current bindings is supplied when a
    refresh is requested. *)
Record t : Type := mk {
  val : A;
  fn : bool;
  bindingsHash : Z;
  cache : gmap Z A;
  loading : bool
}.

Definition static (a : A) : t := mk a false 0 ∅ false.

(** [shouldUpdate]: is the hash of the current bindings new? *)
Definition shouldUpdate (current : Z) (e : t) : bool * Z :=
  if fn e then (negb (bindingsHash e =? current), current) else (false, 0).

Definition loadFromCache (e : t) : bool * t :=
  match cache e !! bindingsHash e with
  | Some v => (true, mk v (fn e) (bindingsHash e) (cache e) false)
  | None => (false, e)
  end.

Definition update (v : A) (e : t) : t :=
  mk v (fn e) (bindingsHash e) (<[bindingsHash e := v]> (cache e)) false.

Definition set_val (v : A) (e : t) : t :=
  mk v (fn e) (bindingsHash e) (cache e) (loading e).
Definition set_fn (b : bool) (e : t) : t :=
  mk (val e) b (bindingsHash e) (cache e) (loading e).
Definition set_bindingsHash (h : Z) (e : t) : t :=
  mk (val e) (fn e) h (cache e) (loading e).
Definition set_loading (b : bool) (e : t) : t :=
  mk (val e) (fn e) (bindingsHash e) (cache e) b.

End Eval.
Global Arguments t : clear implicits.
End Eval.

(** ** Messages *)

Section Msg.
Context {T : Type}.

(** The messages the fields and the group distinguish in their type
    switches.  [KeyMsg k] carries [msg.String()]. *)
Inductive Msg : Type :=
| KeyMsg (k : string)
| updateFieldMsg
| spinnerTickMsg
| updateTitleMsg (id : Z) (title : string) (hash : Z)
| updateDescriptionMsg (id : Z) (description : string) (hash : Z)
| updateOptionsMsg (id : Z) (options : list (Option.t T)) (hash : Z)
| nextFieldMsg
| prevFieldMsg
| otherMsg.

End Msg.
Global Arguments Msg : clear implicits.

(** What [hash(e.bindings)] evaluates to, for the three deferred values of a
    field, at the time a refresh is handled. *)
Record Bindings : Type := mkBindings {
  titleBindings : Z;
  descriptionBindings : Z;
  optionsBindings : Z
}.

(** ** Strings *)

(** [strings.ToLower], on the ASCII letters. *)
Definition lowerAscii (c : ascii) : ascii :=
  let n := Ascii.nat_of_ascii c in
  if (Nat.leb 65 n && Nat.leb n 90)%bool then Ascii.ascii_of_nat (n + 32) else c.

Fixpoint ToLower (s : string) : string :=
  match s with
  | EmptyString => EmptyString
  | String c r => String (lowerAscii c) (ToLower r)
  end.

(** [strings.Contains s sub]. *)
Fixpoint Contains (s sub : string) : bool :=
  String.prefix sub s ||
  match s with
  | EmptyString => false
  | String _ r => Contains r sub
  end.

(** ** The multi-select field *)

Module MultiSelect.

(** Cursor directions ([iota] constants). *)
Definition top : Z := 0.
Definition bottom : Z := 1.
Definition up : Z := 2.
Definition down : Z := 3.
Definition halfUp : Z := 4.
Definition halfDown : Z := 5.

Definition defaultLimit : Z := 2.

(** Modelled from the spec: [defaultHeight] is a constant of the package
    declared outside the sources; the static height attached to a field
    whose options are dynamic. *)
Definition defaultHeight : Z := 10.

Definition limitError : string := "Limit reached. Unable to select another option.".

(** Modelled from the spec: [MultiSelectKeyMap] is declared in [keymap.go],
    not among the sources; one binding per action the field's [Update]
    matches. *)
Record MultiSelectKeyMap : Type := mkKeyMap {
  Next : key.Binding;
  Prev : key.Binding;
  Up : key.Binding;
  Down : key.Binding;
  HalfPageUp : key.Binding;
  HalfPageDown : key.Binding;
  GotoTop : key.Binding;
  GotoBottom : key.Binding;
  Toggle : key.Binding;
  Filter : key.Binding;
  SetFilter : key.Binding;
  ClearFilter : key.Binding;
  Submit : key.Binding;
  ToggleAll : key.Binding
}.

Definition zeroKeyMap : MultiSelectKeyMap :=
  mkKeyMap key.zero key.zero key.zero key.zero key.zero key.zero key.zero
           key.zero key.zero key.zero key.zero key.zero key.zero key.zero.

Section MultiSelect.
Context {T : Type}.

Local Abbreviation Opt := (Option.t T).

(** The [MultiSelect[T]] struct.  [value] is what the accessor holds (the
    externally bound value).  [filteredAliased] records whether the slice
    [filteredOptions] shares its backing array with [options.val] (it does
    after [m.filteredOptions = m.options.val]).  The spinner, the theme and
    the fields no modelled function reads are left out. *)
Record t : Type := mk {
  value : list T;
  id : Z;
  title : Eval.t string;
  description : Eval.t string;
  options : Eval.t (list Opt);
  filteredOptions : list Opt;
  filteredAliased : bool;
  limit : Z;
  height : Z;
  validate : list T -> error;
  err : error;
  cursor : Z;
  focused : bool;
  filtering : bool;
  filter : textinput.Model;
  viewport : viewport.Model;
  selected : gmap Z Opt;
  keymap : MultiSelectKeyMap
}.

Definition set_value v m := mk v (id m) (title m) (description m) (options m)
  (filteredOptions m) (filteredAliased m) (limit m) (height m) (validate m) (err m)
  (cursor m) (focused m) (filtering m) (filter m) (viewport m) (selected m) (keymap m).
Definition set_title v m := mk (value m) (id m) v (description m) (options m)
  (filteredOptions m) (filteredAliased m) (limit m) (height m) (validate m) (err m)
  (cursor m) (focused m) (filtering m) (filter m) (viewport m) (selected m) (keymap m).
Definition set_description v m := mk (value m) (id m) (title m) v (options m)
  (filteredOptions m) (filteredAliased m) (limit m) (height m) (validate m) (err m)
  (cursor m) (focused m) (filtering m) (filter m) (viewport m) (selected m) (keymap m).
Definition set_options v m := mk (value m) (id m) (title m) (description m) v
  (filteredOptions m) (filteredAliased m) (limit m) (height m) (validate m) (err m)
  (cursor m) (focused m) (filtering m) (filter m) (viewport m) (selected m) (keymap m).
(** [m.filteredOptions = v]; [a] tells whether [v] is [m.options.val] itself. *)
Definition set_filteredOptions v a m := mk (value m) (id m) (title m) (description m)
  (options m) v a (limit m) (height m) (validate m) (err m)
  (cursor m) (focused m) (filtering m) (filter m) (viewport m) (selected m) (keymap m).
Definition set_limit v m := mk (value m) (id m) (title m) (description m) (options m)
  (filteredOptions m) (filteredAliased m) v (height m) (validate m) (err m)
  (cursor m) (focused m) (filtering m) (filter m) (viewport m) (selected m) (keymap m).
Definition set_height v m := mk (value m) (id m) (title m) (description m) (options m)
  (filteredOptions m) (filteredAliased m) (limit m) v (validate m) (err m)
  (cursor m) (focused m) (filtering m) (filter m) (viewport m) (selected m) (keymap m).
Definition set_validate v m := mk (value m) (id m) (title m) (description m) (options m)
  (filteredOptions m) (filteredAliased m) (limit m) (height m) v (err m)
  (cursor m) (focused m) (filtering m) (filter m) (viewport m) (selected m) (keymap m).
Definition set_err v m := mk (value m) (id m) (title m) (description m) (options m)
  (filteredOptions m) (filteredAliased m) (limit m) (height m) (validate m) v
  (cursor m) (focused m) (filtering m) (filter m) (viewport m) (selected m) (keymap m).
Definition set_cursor v m := mk (value m) (id m) (title m) (description m) (options m)
  (filteredOptions m) (filteredAliased m) (limit m) (height m) (validate m) (err m)
  v (focused m) (filtering m) (filter m) (viewport m) (selected m) (keymap m).
Definition set_focused v m := mk (value m) (id m) (title m) (description m) (options m)
  (filteredOptions m) (filteredAliased m) (limit m) (height m) (validate m) (err m)
  (cursor m) v (filtering m) (filter m) (viewport m) (selected m) (keymap m).
Definition set_filtering v m := mk (value m) (id m) (title m) (description m) (options m)
  (filteredOptions m) (filteredAliased m) (limit m) (height m) (validate m) (err m)
  (cursor m) (focused m) v (filter m) (viewport m) (selected m) (keymap m).
Definition set_filter v m := mk (value m) (id m) (title m) (description m) (options m)
  (filteredOptions m) (filteredAliased m) (limit m) (height m) (validate m) (err m)
  (cursor m) (focused m) (filtering m) v (viewport m) (selected m) (keymap m).
Definition set_viewport v m := mk (value m) (id m) (title m) (description m) (options m)
  (filteredOptions m) (filteredAliased m) (limit m) (height m) (validate m) (err m)
  (cursor m) (focused m) (filtering m) (filter m) v (selected m) (keymap m).
Definition set_selected v m := mk (value m) (id m) (title m) (description m) (options m)
  (filteredOptions m) (filteredAliased m) (limit m) (height m) (validate m) (err m)
  (cursor m) (focused m) (filtering m) (filter m) (viewport m) v (keymap m).
Definition set_keymap v m := mk (value m) (id m) (title m) (description m) (options m)
  (filteredOptions m) (filteredAliased m) (limit m) (height m) (validate m) (err m)
  (cursor m) (focused m) (filtering m) (filter m) (viewport m) (selected m) v.

(** [NewMultiSelect]; [newId] is what [nextID()] returns. *)
Definition NewMultiSelect (newId : Z) : t :=
  mk [] newId (Eval.static "") (Eval.static "") (Eval.static []) [] false
     defaultLimit 0 (fun _ => None) None 0 false false textinput.New
     viewport.zero ∅ zeroKeyMap.

Definition Limit (l : Z) (m : t) : t :=
  let m := set_limit l m in
  set_keymap (let k := keymap m in
    mkKeyMap (Next k) (Prev k) (Up k) (Down k) (HalfPageUp k) (HalfPageDown k)
             (GotoTop k) (GotoBottom k) (Toggle k) (Filter k) (SetFilter k)
             (ClearFilter k) (Submit k) (key.SetEnabled (l =? 0) (ToggleAll k))) m.

Definition Validate (f : list T -> error) (m : t) : t := set_validate f m.

Definition WithKeyMap (k : MultiSelectKeyMap) (m : t) : t := set_keymap k m.

Definition Error (m : t) : error := err m.

Definition GetValue (m : t) : list T := value m.

Definition numSelected (m : t) : Z := Z.of_nat (size (selected m)).

Definition isSelected (i : Z) (m : t) : bool := bool_decide (is_Some (selected m !! i)).

(** [ToggleSelect]: the new state and the returned error. *)
Definition ToggleSelect (i : Z) (o : Opt) (m : t) : t * error :=
  match selected m !! i with
  | Some _ => (set_selected (delete i (selected m)) m, None)
  | None =>
      if limit m <=? Z.of_nat (size (selected m))
      then (m, Some limitError)
      else (set_selected (<[i := o]> (selected m)) m, None)
  end.

(** The orders in which [range m.selected] may visit the keys. *)
Definition rangeOrder (m : t) (order : list Z) : Prop :=
  order ≡ₚ (map_to_list (selected m)).*1.

(** [updateValue], the commit; [order] is the order in which the [range]
    over the selection map visits its keys. *)
Definition updateValue (order : list Z) (m : t) : t :=
  let v := omap (fun i => Option.Value <$> selected m !! i) order in
  let m := set_value v m in
  set_err (validate m (value m)) m.

Definition Focus (order : list Z) (m : t) : t * list Cmd :=
  (set_focused true (updateValue order m), []).

Definition Blur (order : list Z) (m : t) : t * list Cmd :=
  (set_focused false (updateValue order m), []).

(** [initSelectedValues], from index [i] on. *)
Fixpoint initSelectedFrom (i : Z) (opts : list Opt) (sel : gmap Z Opt) : gmap Z Opt :=
  match opts with
  | [] => sel
  | o :: rest =>
      initSelectedFrom (i + 1) rest (if Option.selected o then <[i := o]> sel else sel)
  end.

Definition initSelectedValues (opts : list Opt) (m : t) : t :=
  set_selected (initSelectedFrom 0 opts (selected m)) m.

Definition lowestSelectedIndex (m : t) : Z :=
  match (map_to_list (selected m)).*1 with
  | [] => 0
  | k :: ks => foldr Z.min k ks
  end.

Definition setFilter (b : bool) (m : t) : t :=
  let m := set_filtering b m in
  let k := keymap m in
  set_keymap
    (mkKeyMap (key.SetEnabled (negb b) (Next k)) (key.SetEnabled (negb b) (Prev k))
       (Up k) (Down k) (HalfPageUp k) (HalfPageDown k) (GotoTop k) (GotoBottom k)
       (Toggle k) (key.SetEnabled (negb b) (Filter k)) (key.SetEnabled b (SetFilter k))
       (key.SetEnabled (negb b && negb (bool_decide (textinput.Value (filter m) = "")))
          (ClearFilter k))
       (key.SetEnabled (negb b) (Submit k)) (ToggleAll k)) m.

Definition filterFunc (m : t) (option : string) : bool :=
  Contains (ToLower option) (ToLower (textinput.Value (filter m))).

(** [moveCursor]. *)
Definition moveCursor (i : Z) (m : t) : t :=
  let n := len (filteredOptions m) in
  let vp := viewport m in
  if i =? top then
    set_viewport (viewport.GotoTop vp) (set_cursor top m)
  else if i =? up then
    let m := set_cursor (Z.max (cursor m - 1) 0) m in
    if cursor m <? viewport.YOffset vp
    then set_viewport (viewport.SetYOffset (cursor m) vp) m else m
  else if i =? down then
    let m := set_cursor (Z.min (cursor m + 1) (n - 1)) m in
    if viewport.YOffset vp + viewport.Height vp <=? cursor m
    then set_viewport (viewport.LineDown 1 vp) m else m
  else if i =? bottom then
    set_viewport (viewport.GotoBottom vp) (set_cursor (n - 1) m)
  else if i =? halfUp then
    set_viewport (viewport.HalfViewUp vp)
      (set_cursor (Z.max (cursor m - Z.quot (viewport.Height vp) 2) 0) m)
  else if i =? halfDown then
    set_viewport (viewport.HalfViewDown vp)
      (set_cursor (Z.min (cursor m + Z.quot (viewport.Height vp) 2) (n - 1)) m)
  else m.

(** The cursor row lies inside the window of the viewport. *)
Definition cursorVisible (m : t) : Prop :=
  viewport.YOffset (viewport m) ≤ cursor m
  ∧ cursor m < viewport.YOffset (viewport m) + viewport.Height (viewport m).

(** *** Rendering and the text filter: the external collaborators *)

(** [lipgloss.Height(m.titleView())] and
    [lipgloss.Height(m.descriptionView())]: the rendering layer decides them
    from the field's state and theme. *)
Context (titleViewHeight descriptionViewHeight : t -> Z).

(** Whether [time.Since(m.options.loadingStart) > spinnerShowThreshold] when
    the options are rendered. *)
Context (spinnerElapsed : t -> bool).

(** [m.filter.Update(msg)]: how the text input edits the filter text. *)
Context (filterUpdate : textinput.Model -> Msg T -> textinput.Model * list Cmd).

Definition updateViewportHeight (m : t) : t :=
  if height m <=? 0 then
    set_viewport (viewport.SetHeight (len (Eval.val (options m))) (viewport m)) m
  else
    let minHeight := 1 in
    set_viewport
      (viewport.SetHeight
         (Z.max minHeight (height m - titleViewHeight m - descriptionViewHeight m))
         (viewport m)) m.

Definition Options (opts : list Opt) (m : t) : t :=
  if len opts <=? 0 then m
  else
    let m := initSelectedValues opts m in
    let m := set_options (Eval.set_val opts (options m)) m in
    let m := set_filteredOptions opts true m in
    let m := set_cursor (lowestSelectedIndex m) m in
    updateViewportHeight m.

Definition OptionsFunc (m : t) : t :=
  let m := set_options (Eval.set_fn true (options m)) m in
  let m := set_filteredOptions [] false m in
  let m :=
    if height m <=? 0
    then updateViewportHeight (set_height defaultHeight m) else m in
  set_cursor (lowestSelectedIndex m) m.

Definition Height (h : Z) (m : t) : t :=
  updateViewportHeight (set_height h m).

(** The number of lines [optionsView] renders: one line, then one more for
    each newline the two loops write. *)
Definition optionsViewLines (m : t) : Z :=
  if Eval.loading (options m) && spinnerElapsed m then 1
  else
    let n := len (filteredOptions m) in
    let N := len (Eval.val (options m)) in
    1 + len (List.filter (fun i => i <? N - 1) (seqZ 0 n)) + len (seqZ n (N - 1 - n)).

Definition startAtSelected (m : t) : t :=
  let vp := viewport m in
  if viewport.YOffset vp + viewport.Height vp <? cursor m
  then set_viewport (viewport.SetYOffset (cursor m - viewport.YOffset vp) vp) m
  else m.

(** What [View] does to the field (it has a pointer receiver): the viewport
    content is replaced and the viewport moved to the cursor. *)
Definition View (m : t) : t :=
  startAtSelected (set_viewport (viewport.SetContent (optionsViewLines m) (viewport m)) m).

(** The [ToggleAll] case of [Update], up to its [updateValue]: the flag
    [selected] is computed from the options' own flags and written back to
    them.  With [filteredOptions] sharing the array of [options.val], a write
    to one is a write to the other. *)
Definition toggleAllFlags (m : t) : t :=
  let sel := existsb (fun o => negb (Option.selected o)) (filteredOptions m) in
  let fkeys := Option.Key <$> filteredOptions m in
  let okeys := Option.Key <$> Eval.val (options m) in
  let hit (keys : list string) (o : Opt) := bool_decide (Option.Key o ∈ keys) in
  let first (j : nat) (o : Opt) :=
    bool_decide (Option.Key o ∉ take j fkeys) in
  let opts' :=
    (fun o => if hit fkeys o then Option.Selected sel o else o) <$> Eval.val (options m) in
  let filt' :=
    imap (fun j o => if hit okeys o && first j o then Option.Selected sel o else o)
      (filteredOptions m) in
  if filteredAliased m then
    set_filteredOptions opts' true (set_options (Eval.set_val opts' (options m)) m)
  else
    set_filteredOptions filt' false (set_options (Eval.set_val opts' (options m)) m).

(** The block that ends the [tea.KeyMsg] case: the filtered options are
    recomputed while filtering. *)
Definition refilter (m : t) : t :=
  if filtering m then
    let m :=
      if negb (bool_decide (textinput.Value (filter m) = ""))
      then set_filteredOptions
             (List.filter (fun o => filterFunc m (Option.String o)) (Eval.val (options m)))
             false m
      else set_filteredOptions (Eval.val (options m)) true m in
    if 0 <? len (filteredOptions m)
    then set_cursor (Z.min (cursor m) (len (filteredOptions m) - 1)) m
    else m
  else m.

(** [m.filteredOptions = m.options.val; m.updateValue(); m.cursor = clamp(..)],
    shared by the cache hit and the delivery of fresh options. *)
Definition resetFiltered (order : list Z) (m : t) : t :=
  let m := set_filteredOptions (Eval.val (options m)) true m in
  let m := updateValue order m in
  set_cursor (clamp (cursor m) 0 (len (filteredOptions m) - 1)) m.

(** The [updateFieldMsg] case. *)
Definition refresh (order : list Z) (env : Bindings) (m : t) : t * list Cmd :=
  let '(m, cmds) :=
    let '(ok, hash) := Eval.shouldUpdate (titleBindings env) (title m) in
    if ok then
      let e := Eval.set_bindingsHash hash (title m) in
      let '(hit, e') := Eval.loadFromCache e in
      if hit then (set_title e' m, [])
      else (set_title (Eval.set_loading true e) m, [CmdEvalTitle (id m) hash])
    else (m, []) in
  let '(m, cmds) :=
    let '(ok, hash) := Eval.shouldUpdate (descriptionBindings env) (description m) in
    if ok then
      let e := Eval.set_bindingsHash hash (description m) in
      let '(hit, e') := Eval.loadFromCache e in
      if hit then (set_description e' m, cmds)
      else (set_description (Eval.set_loading true e) m,
            cmds ++ [CmdEvalDescription (id m) hash])
    else (m, cmds) in
  let '(ok, hash) := Eval.shouldUpdate (optionsBindings env) (options m) in
  if ok then
    let e := Eval.set_bindingsHash hash (options m) in
    let '(hit, e') := Eval.loadFromCache e in
    if hit then (resetFiltered order (set_options e' m), cmds)
    else (set_options (Eval.set_loading true e) m,
          cmds ++ [CmdEvalOptions (id m) hash; CmdSpinnerTick])
  else (m, cmds).

(** The [tea.KeyMsg] case; [cmds] holds what the filter's update scheduled. *)
Definition updateKey (order : list Z) (k : string) (cmds : list Cmd) (m : t)
  : option (t * list Cmd) :=
  let m := set_err None m in
  let km := keymap m in
  let finish (m : t) := Some (refilter m, cmds) in
  if key.Matches k [Filter km] then
    let m := setFilter true m in
    let '(f, c) := textinput.Focus (filter m) in
    Some (set_filter f m, c)
  else if key.Matches k [SetFilter km] then
    let m :=
      if len (filteredOptions m) <=? 0
      then set_filteredOptions (Eval.val (options m)) true
             (set_filter (textinput.SetValue "" (filter m)) m)
      else m in
    finish (setFilter false m)
  else if key.Matches k [ClearFilter km] then
    let m := set_filter (textinput.SetValue "" (filter m)) m in
    let m := set_filteredOptions (Eval.val (options m)) true m in
    finish (setFilter false m)
  else if key.Matches k [Up km] then
    if filtering m && bool_decide (k = "k") then finish m
    else finish (moveCursor up m)
  else if key.Matches k [Down km] then
    if filtering m && bool_decide (k = "j") then finish m
    else finish (moveCursor down m)
  else if key.Matches k [GotoTop km] then
    if filtering m then finish m else finish (moveCursor top m)
  else if key.Matches k [GotoBottom km] then
    if filtering m then finish m else finish (moveCursor bottom m)
  else if key.Matches k [HalfPageUp km] then finish (moveCursor halfUp m)
  else if key.Matches k [HalfPageDown km] then finish (moveCursor halfDown m)
  else if key.Matches k [Toggle km] && negb (filtering m) then
    match index (Eval.val (options m)) (cursor m) with
    | None => None
    | Some opt =>
        let '(m, _) := ToggleSelect (cursor m) opt m in
        finish (updateValue order m)
    end
  else if key.Matches k [ToggleAll km] && (limit m =? 0) then
    finish (updateValue order (toggleAllFlags m))
  else if key.Matches k [Prev km] then
    let m := updateValue order m in
    let m := set_err (validate m (value m)) m in
    match err m with
    | Some _ => Some (m, [])
    | None => Some (m, [CmdPrevField])
    end
  else if key.Matches k [Next km; Submit km] then
    let m := updateValue order m in
    let m := set_err (validate m (value m)) m in
    match err m with
    | Some _ => Some (m, [])
    | None => Some (m, [CmdNextField])
    end
  else finish m.

(** [Update].  [order] is the order of the one [range] over the selection
    map the call may run, [env] the hashes of the current bindings. *)
Definition Update (order : list Z) (env : Bindings) (m : t) (msg : Msg T)
  : option (t * list Cmd) :=
  let m := updateViewportHeight m in
  let '(m, cmds) :=
    if filtering m then
      let '(f, c) := filterUpdate (filter m) msg in (set_filter f m, c)
    else (m, []) in
  match msg with
  | updateFieldMsg => Some (refresh order env m)
  | spinnerTickMsg =>
      if negb (Eval.loading (options m)) then Some (m, cmds)
      else Some (m, [CmdSpinnerTick])
  | updateTitleMsg i title hash =>
      if (i =? id m) && (hash =? Eval.bindingsHash (MultiSelect.title m))
      then Some (set_title (Eval.update title (MultiSelect.title m)) m, cmds)
      else Some (m, cmds)
  | updateDescriptionMsg i description hash =>
      if (i =? id m) && (hash =? Eval.bindingsHash (MultiSelect.description m))
      then Some (set_description (Eval.update description (MultiSelect.description m)) m, cmds)
      else Some (m, cmds)
  | updateOptionsMsg i opts hash =>
      if (i =? id m) && (hash =? Eval.bindingsHash (options m))
      then Some (resetFiltered order (set_options (Eval.update opts (options m)) m), cmds)
      else Some (m, cmds)
  | KeyMsg k => updateKey order k cmds m
  | _ => Some (m, cmds)
  end.

(** *** Accessible mode *)

(** One answer to the prompt of [runAccessible]: the number
    [accessibility.PromptInt] returns, and the order of the [range] in
    [updateValue] should this answer make the loop commit. *)
Record Answer : Type := mkAnswer {
  choice : Z;
  commitOrder : list Z
}.

(** The loop of [runAccessible]; it ends on an answer [0] that validates.
    [None]: the answers ran out while the loop was still prompting.
    Modelled from the spec: [accessibility.PromptInt] is not among the
    sources; it prompts again until the number lies within its bounds, so an
    answer out of [0 .. len(options)] is passed over. *)
Fixpoint accessibleLoop (answers : list Answer) (m : t) : option t :=
  match answers with
  | [] => None
  | a :: rest =>
      let c := choice a in
      if (c <? 0) || (len (Eval.val (options m)) <? c) then accessibleLoop rest m
      else if c =? 0 then
        let m := updateValue (commitOrder a) m in
        match validate m (value m) with
        | Some _ => accessibleLoop rest m
        | None => Some m
        end
      else
        match index (Eval.val (options m)) (c - 1) with
        | None => None
        | Some o =>
            let '(m, e) := ToggleSelect (c - 1) o m in
            accessibleLoop rest m
        end
  end.

(** The loop that follows: the selected options are appended, in index
    order, to what the accessor holds. *)
Fixpoint appendSelected (i : Z) (opts : list Opt) (vs : list T) (sel : gmap Z Opt)
  : list T * gmap Z Opt :=
  match opts with
  | [] => (vs, sel)
  | o :: rest =>
      match sel !! i with
      | Some _ => appendSelected (i + 1) rest (vs ++ [Option.Value o]) (<[i := o]> sel)
      | None => appendSelected (i + 1) rest vs sel
      end
  end.

(** [runAccessible]. *)
Definition runAccessible (answers : list Answer) (m : t) : option t :=
  match accessibleLoop answers m with
  | None => None
  | Some m =>
      let '(vs, sel) := appendSelected 0 (Eval.val (options m)) (value m) (selected m) in
      Some (set_value vs (set_selected sel m))
  end.

End MultiSelect.
Global Arguments t : clear implicits.
End MultiSelect.

(** ** The select field *)

Module Select.

(** Modelled from the spec: [SelectKeyMap] is declared in [keymap.go], not
    among the sources; the four bindings [Update] and [KeyBinds] name. *)
Record SelectKeyMap : Type := mkKeyMap {
  Up : key.Binding;
  Down : key.Binding;
  Next : key.Binding;
  Prev : key.Binding
}.

Section Select.
Context {T : Type}.

Local Abbreviation Opt := (Option.t T).

(** The [Select[T]] struct; [value] is what the pointer [s.value] points
    to.  The theme is left out. *)
Record t : Type := mk {
  value : T;
  title : string;
  description : string;
  validate : T -> error;
  err : error;
  options : list Opt;
  selected : Z;
  focused : bool;
  accessible : bool;
  keymap : SelectKeyMap
}.

Definition set_value v s := mk v (title s) (description s) (validate s) (err s)
  (options s) (selected s) (focused s) (accessible s) (keymap s).
Definition set_err v s := mk (value s) (title s) (description s) (validate s) v
  (options s) (selected s) (focused s) (accessible s) (keymap s).
Definition set_selected v s := mk (value s) (title s) (description s) (validate s) (err s)
  (options s) v (focused s) (accessible s) (keymap s).
Definition set_focused v s := mk (value s) (title s) (description s) (validate s) (err s)
  (options s) (selected s) v (accessible s) (keymap s).

Definition Error (s : t) : error := err s.

Definition Focus (s : t) : t * list Cmd := (set_focused true s, []).

Definition Blur (s : t) : t * list Cmd :=
  let s := set_focused false s in
  (set_err (validate s (value s)) s, []).

(** [Update]. *)
Definition Update (s : t) (msg : Msg T) : option (t * list Cmd) :=
  match msg with
  | KeyMsg k =>
      let s := set_err None s in
      let km := keymap s in
      if key.Matches k [Up km] then
        Some (set_selected (Z.max (selected s - 1) 0) s, [])
      else if key.Matches k [Down km] then
        Some (set_selected (Z.min (selected s + 1) (len (options s) - 1)) s, [])
      else if key.Matches k [Prev km] then
        Some (s, [CmdPrevField])
      else if key.Matches k [Next km] then
        match index (options s) (selected s) with
        | None => None
        | Some o =>
            let v := Option.Value o in
            let s := set_err (validate s v) s in
            match err s with
            | Some _ => Some (s, [])
            | None => Some (set_value v s, [CmdNextField])
            end
        end
      else Some (s, [])
  | _ => Some (s, [])
  end.

(** [runAccessible]; [choice] is what [accessibility.PromptInt] returns, a
    number from [1] to [len(s.options)]. *)
Definition runAccessible (choice : Z) (s : t) : option t :=
  match index (options s) (choice - 1) with
  | None => None
  | Some option => Some (set_value (Option.Value option) s)
  end.

End Select.
Global Arguments t : clear implicits.
End Select.

(** ** The text field *)

Module textarea.

(** Modelled from the spec: the editing buffer is an external
    [bubbles/textarea]; only its text and focus flag are kept. *)
Record Model : Type := mk {
  value : string;
  focus : bool
}.

Definition Value (m : Model) : string := value m.
Definition Focus (m : Model) : Model * list Cmd := (mk (value m) true, [CmdBlink]).
Definition Blur (m : Model) : Model := mk (value m) false.

End textarea.

Module Text.

(** Modelled from the spec: [TextKeyMap] is declared in [keymap.go], not
    among the sources. *)
Record TextKeyMap : Type := mkKeyMap {
  Next : key.Binding;
  NewLine : key.Binding;
  Prev : key.Binding
}.

Section Text.
Context {T : Type}.

(** The [Text] struct; [value] is what the pointer [t.value] points to. *)
Record t : Type := mk {
  title : string;
  value : string;
  validate : string -> error;
  err : error;
  textarea : textarea.Model;
  focused : bool;
  keymap : TextKeyMap
}.

(** [t.textarea.Update(msg)]: how the text area edits its buffer. *)
Context (textareaUpdate : textarea.Model -> Msg T -> textarea.Model * list Cmd).

Definition Error (x : t) : error := err x.

Definition Focus (x : t) : t * list Cmd :=
  let '(ta, c) := textarea.Focus (textarea x) in
  (mk (title x) (value x) (validate x) (err x) ta true (keymap x), c).

Definition Blur (x : t) : t * list Cmd :=
  let v := textarea.Value (textarea x) in
  (mk (title x) v (validate x) (validate x v) (textarea.Blur (textarea x)) false (keymap x),
   []).

(** [Update]. *)
Definition Update (x : t) (msg : Msg T) : t * list Cmd :=
  let '(ta, cmds) := textareaUpdate (textarea x) msg in
  let x := mk (title x) (value x) (validate x) (err x) ta (focused x) (keymap x) in
  match msg with
  | KeyMsg k =>
      let x := mk (title x) (value x) (validate x) None (textarea x) (focused x) (keymap x) in
      if key.Matches k [Next (keymap x)] then (x, cmds ++ [CmdNextField])
      else if key.Matches k [Prev (keymap x)] then (x, cmds ++ [CmdPrevField])
      else (x, cmds)
  | _ => (x, cmds)
  end.

End Text.
Global Arguments t : clear implicits.
End Text.

(** ** Groups *)

Module Group.

(** The orders of the [range]s over a selection map that one [Update] of a
    group may run: in the field's own [Update], in the [Blur] of the field
    left and in the [Focus] of the field entered. *)
Record Orders : Type := mkOrders {
  updateOrder : list Z;
  blurOrder : list Z;
  focusOrder : list Z
}.

(** Modelled from the spec: the paginator is the external
    [bubbles/paginator]; the group reads its [Page] and [TotalPages]. *)
Record Paginator : Type := mkPaginator {
  Page : Z;
  TotalPages : Z
}.

(** [paginator.New()] followed by [SetTotalPages(items)], one item a page. *)
Definition newPaginator (items : Z) : Paginator :=
  mkPaginator 0 (if items <? 1 then 1 else items).

Section Group.
Context {T : Type}.

(** The [Field] interface, over the three fields of the sources; the
    selects of one group share their value type. *)
Inductive Field : Type :=
| FSelect (s : Select.t T)
| FMultiSelect (m : MultiSelect.t T)
| FText (x : Text.t).

Context (titleViewHeight descriptionViewHeight : MultiSelect.t T -> Z).
Context (spinnerElapsed : MultiSelect.t T -> bool).
Context (filterUpdate : textinput.Model -> Msg T -> textinput.Model * list Cmd).
Context (textareaUpdate : textarea.Model -> Msg T -> textarea.Model * list Cmd).

(** [lipgloss.Height(f.View())]: the height of a field's rendering, decided
    by the rendering layer from the field's state. *)
Context (viewHeight : Field -> Z).


Definition fieldUpdate (order : list Z) (env : Bindings) (f : Field) (msg : Msg T)
  : option (Field * list Cmd) :=
  match f with
  | FSelect s => prod_map FSelect id <$> Select.Update s msg
  | FMultiSelect m =>
      prod_map FMultiSelect id <$>
        MultiSelect.Update titleViewHeight descriptionViewHeight filterUpdate order env m msg
  | FText x => Some (prod_map FText id (Text.Update textareaUpdate x msg))
  end.

Definition fieldBlur (order : list Z) (f : Field) : Field * list Cmd :=
  match f with
  | FSelect s => prod_map FSelect id (Select.Blur s)
  | FMultiSelect m => prod_map FMultiSelect id (MultiSelect.Blur order m)
  | FText x => prod_map FText id (Text.Blur x)
  end.

Definition fieldFocus (order : list Z) (f : Field) : Field * list Cmd :=
  match f with
  | FSelect s => prod_map FSelect id (Select.Focus s)
  | FMultiSelect m => prod_map FMultiSelect id (MultiSelect.Focus order m)
  | FText x => prod_map FText id (Text.Focus x)
  end.

(** What [View] does to a field. *)
Definition fieldView (f : Field) : Field :=
  match f with
  | FMultiSelect m => FMultiSelect (MultiSelect.View spinnerElapsed m)
  | _ => f
  end.

(** The [Group] struct, without title, description, help and theme. *)
Record t : Type := mk {
  fields : list Field;
  paginator : Paginator;
  viewport : viewport.Model;
  showHelp : bool;
  showErrors : bool;
  width : Z;
  height : Z
}.

Definition set_fields v g := mk v (paginator g) (viewport g) (showHelp g) (showErrors g)
  (width g) (height g).
Definition set_Page v g := mk (fields g) (mkPaginator v (TotalPages (paginator g)))
  (viewport g) (showHelp g) (showErrors g) (width g) (height g).
Definition set_viewport v g := mk (fields g) (paginator g) v (showHelp g) (showErrors g)
  (width g) (height g).

(** [g.fields[i] = f]. *)
Definition storeField (i : Z) (f : Field) (g : t) : t :=
  set_fields (<[Z.to_nat i := f]> (fields g)) g.

(** [fullHeight]: the rows of the fields' renderings, each with its gap. *)
Definition fullHeight (fs : list Field) : Z :=
  foldl (fun h f => h + (viewHeight f + 1)) 0 fs.

(** [NewGroup]; the viewport starts [80] wide and as high as the fields. *)
Definition NewGroup (fs : list Field) : t :=
  let h := fullHeight fs in
  mk (fieldView <$> fs) (newPaginator (len fs)) (viewport.mk 0 h 0) true true 0 h.


(** What [View] does to the group: every field is rendered, and the
    viewport content becomes the renderings joined by the field separator,
    with a final newline.  [gap] is the number of newlines in the separator:
    [1] for the fallback, [2] for a separator that leaves one blank row, which
    is the gap the offsets of [Update] and [fullHeight] count. *)
Definition View (gap : Z) (g : t) : t :=
  let k := len (fields g) in
  let newlines :=
    foldl (fun n f => n + (viewHeight f - 1)) 0 (fields g) + gap * Z.max 0 (k - 1) + 1 in
  mk (fieldView <$> fields g) (paginator g)
     (viewport.SetContent (newlines + 1) (viewport g))
     (showHelp g) (showErrors g) (width g) (height g).


(** [setCurrent]. *)
Definition setCurrent (o : Orders) (current : Z) (g : t) : option (t * list Cmd) :=
  f ← index (fields g) (Page (paginator g));
  let '(f, c1) := fieldBlur (blurOrder o) f in
  let g := storeField (Page (paginator g)) f g in
  let g := set_Page (clamp current 0 (len (fields g) - 1)) g in
  f ← index (fields g) (Page (paginator g));
  let '(f, c2) := fieldFocus (focusOrder o) f in
  Some (storeField (Page (paginator g)) f g, c1 ++ c2).

(** The offset loops of [Update]: the fields before index [k] are rendered
    one after the other; the rows they take, each with its gap, are summed. *)
Definition rowsBefore (k : Z) (fs : list Field) : Z :=
  foldl (fun h f => h + (viewHeight f + 1)) 0 (take (Z.to_nat k) fs).

Definition viewBefore (k : Z) (g : t) : t :=
  set_fields ((fieldView <$> take (Z.to_nat k) (fields g)) ++ drop (Z.to_nat k) (fields g)) g.

(** [Update]. *)
Definition Update (o : Orders) (env : Bindings) (g : t) (msg : Msg T)
  : option (t * list Cmd) :=
  f ← index (fields g) (Page (paginator g));
  '(f, cmd) ← fieldUpdate (updateOrder o) env f msg;
  let g := storeField (Page (paginator g)) f g in
  let cmds := cmd in
  match msg with
  | nextFieldMsg =>
      let current := Page (paginator g) in
      '(g, cmd) ← setCurrent o (current + 1) g;
      if TotalPages (paginator g) - 1 <=? current then
        Some (g, cmds ++ [CmdNextGroup])
      else
        let offset := rowsBefore (current + 1) (fields g) in
        let g := viewBefore (current + 1) g in
        Some (set_viewport (viewport.SetYOffset offset (viewport g)) g, cmds ++ cmd)
  | prevFieldMsg =>
      let current := Page (paginator g) in
      '(g, cmd) ← setCurrent o (current - 1) g;
      if current =? 0 then
        Some (g, cmds ++ [CmdPrevGroup])
      else
        let offset := rowsBefore (current - 1) (fields g) in
        let g := viewBefore (current - 1) g in
        Some (set_viewport (viewport.SetYOffset offset (viewport g)) g, cmds ++ cmd)
  | _ => Some (g, cmds)
  end.

End Group.
Global Arguments Field : clear implicits.
Global Arguments t : clear implicits.
End Group.

(** ** Sample fields *)

(** Concrete fields over [string] values, for the executable checks of the
    properties below. *)
Module Sample.

Definition optA : Option.t string := Option.NewOption "A" "a".
Definition optB : Option.t string := Option.NewOption "B" "b".
Definition optC : Option.t string := Option.NewOption "C" "c".
Definition optD : Option.t string := Option.NewOption "D" "d".

(** A title and a description of one line each. *)
Definition oneLine : MultiSelect.t string -> Z := fun _ => 1.

Definition neverElapsed : MultiSelect.t string -> bool := fun _ => false.

(** A filter and a text area that ignore every message. *)
Definition idleFilter (f : textinput.Model) (_ : Msg string) : textinput.Model * list Cmd :=
  (f, []).
Definition idleTextarea (a : textarea.Model) (_ : Msg string) : textarea.Model * list Cmd :=
  (a, []).

(** [NewMultiSelect().Options(A, B, C, D)] with the first three options
    pre-selected: three selected entries under the default limit of two. *)
Definition overfull : MultiSelect.t string :=
  MultiSelect.Options oneLine oneLine
    [Option.Selected true optA; Option.Selected true optB; Option.Selected true optC; optD]
    (MultiSelect.NewMultiSelect 1).

(** [NewMultiSelect().Limit(0).Options(A, B)]. *)
Definition unbounded : MultiSelect.t string :=
  MultiSelect.Options oneLine oneLine [optA; optB]
    (MultiSelect.Limit 0 (MultiSelect.NewMultiSelect 1)).

(** Key maps in the style of the package's defaults. *)
Definition multiSelectKeys : MultiSelect.MultiSelectKeyMap :=
  MultiSelect.mkKeyMap (key.NewBinding ["enter"; "tab"]) (key.NewBinding ["shift+tab"])
    (key.NewBinding ["up"; "k"]) (key.NewBinding ["down"; "j"])
    (key.NewBinding ["ctrl+u"]) (key.NewBinding ["ctrl+d"])
    (key.NewBinding ["home"; "g"]) (key.NewBinding ["end"; "G"])
    (key.NewBinding [" "; "x"]) (key.NewBinding ["/"])
    (key.mk ["esc"] true) (key.mk ["esc"] true)
    (key.NewBinding ["enter"]) (key.NewBinding ["ctrl+a"]).

Definition selectKeys : Select.SelectKeyMap :=
  Select.mkKeyMap (key.NewBinding ["up"; "k"]) (key.NewBinding ["down"; "j"])
    (key.NewBinding ["enter"; "tab"]) (key.NewBinding ["shift+tab"]).


Definition noBindings : Bindings := mkBindings 0 0 0.

(** The state a [Update] leaves, or [d] had it panicked. *)
Definition stateOf {A : Type} (d : A) (r : option (A * list Cmd)) : A :=
  from_option fst d r.

(** [unbounded] with the key map, [ToggleAll] enabled by [Limit(0)]. *)
Definition unboundedKeyed : MultiSelect.t string :=
  MultiSelect.Limit 0 (MultiSelect.WithKeyMap multiSelectKeys unbounded).

(** A validator that looks at the order of the committed values. *)
Definition aFirst (v : list string) : error :=
  match v with
  | "a" :: _ => None
  | _ => Some "a must come first"
  end.

(** Options [A] and [B], both selected by two calls of [ToggleSelect]. *)
Definition twoSelected : MultiSelect.t string :=
  let m := MultiSelect.Validate aFirst
             (MultiSelect.Options oneLine oneLine [optA; optB] (MultiSelect.NewMultiSelect 1)) in
  let m := (MultiSelect.ToggleSelect 0 optA m).1 in
  (MultiSelect.ToggleSelect 1 optB m).1.

(** Ten options, the fourth pre-selected, in a field five rows high, after
    it has been rendered once. *)
Definition tenOptions : list (Option.t string) :=
  [optA; optB; optC; Option.Selected true optD; optA; optB; optC; optD; optA; optB].

Definition preselected : MultiSelect.t string :=
  MultiSelect.View neverElapsed
    (MultiSelect.Options oneLine oneLine tenOptions
       (MultiSelect.Height oneLine oneLine 5 (MultiSelect.NewMultiSelect 1))).

(** The same ten options with nothing pre-selected. *)
Definition scrolling : MultiSelect.t string :=
  MultiSelect.View neverElapsed
    (MultiSelect.Options oneLine oneLine
       [optA; optB; optC; optD; optA; optB; optC; optD; optA; optB]
       (MultiSelect.Height oneLine oneLine 5 (MultiSelect.NewMultiSelect 1))).

(** A field whose options come from a function: a refresh under bindings
    hash [11], then one under hash [22]. *)
Definition refreshedTwice : MultiSelect.t string :=
  let m := MultiSelect.OptionsFunc oneLine oneLine (MultiSelect.NewMultiSelect 1) in
  let m := stateOf m (MultiSelect.Update oneLine oneLine idleFilter [] (mkBindings 0 0 11)
                        m updateFieldMsg) in
  stateOf m (MultiSelect.Update oneLine oneLine idleFilter [] (mkBindings 0 0 22)
               m updateFieldMsg).

(** A select over [A] and [B] whose validator refuses the value of [A]. *)
Definition notA (v : string) : error :=
  if bool_decide (v = "a") then Some "a is not allowed" else None.

Definition picky : Select.t string :=
  Select.mk "" "Pick" "" notA None [optA; optB] 0 true false selectKeys.

(** A multi-select over [A] and [B] with the key map. *)
Definition plain : MultiSelect.t string :=
  MultiSelect.WithKeyMap multiSelectKeys
    (MultiSelect.Options oneLine oneLine [optA; optB] (MultiSelect.NewMultiSelect 1)).

(** *** Groups *)

(** The rows a field's rendering takes: a title row and a row for each
    option, or six rows of text. *)
Definition rows (f : Group.Field string) : Z :=
  match f with
  | Group.FSelect s => 1 + len (Select.options s)
  | Group.FMultiSelect m => 2 + viewport.Height (MultiSelect.viewport m)
  | Group.FText _ => 6
  end.

Definition required (v : string) : error :=
  if bool_decide (v = "") then Some "required" else None.

Definition noOrders : Group.Orders := Group.mkOrders [] [] [].

Definition groupUpdate (g : Group.t string) (msg : Msg string) : Group.t string :=
  stateOf g (Group.Update oneLine oneLine neverElapsed idleFilter idleTextarea rows
               noOrders noBindings g msg).

(** A select over [A] and [B] that requires a value; nothing is bound yet. *)
Definition requiredSelect : Select.t string :=
  Select.mk "" "Pick" "" required None [optA; optB] 0 false false selectKeys.






End Sample.

(** ** Sample runs *)

(** Fields and groups reached by key presses, for the executable checks of
    the further properties. *)
Module Demo.

(** The commands a [Update] hands back, or none had it panicked. *)
Definition cmdsOf {A : Type} (r : option (A * list Cmd)) : list Cmd :=
  from_option snd [] r.

(** A filter that appends every one-letter key to its text while it has
    the focus and schedules nothing. *)
Definition typing (f : textinput.Model) (msg : Msg string) : textinput.Model * list Cmd :=
  match msg with
  | KeyMsg (String c EmptyString) =>
      if textinput.focus f
      then (textinput.SetValue (textinput.Value f ++ String c EmptyString) f, [])
      else (f, [])
  | _ => (f, [])
  end.

Definition apple : Option.t string := Option.NewOption "Apple" "apple".
Definition banana : Option.t string := Option.NewOption "Banana" "banana".
Definition cherry : Option.t string := Option.NewOption "Cherry" "cherry".

Definition press (m : MultiSelect.t string) (k : string) : MultiSelect.t string :=
  Sample.stateOf m
    (MultiSelect.Update Sample.oneLine Sample.oneLine typing [] Sample.noBindings m
       (KeyMsg k)).

(** [NewMultiSelect().Options(Apple, Banana, Cherry)] with the key map. *)
Definition fruit : MultiSelect.t string :=
  MultiSelect.WithKeyMap Sample.multiSelectKeys
    (MultiSelect.Options Sample.oneLine Sample.oneLine [apple; banana; cherry]
       (MultiSelect.NewMultiSelect 1)).

(** The user opens the filter and types [A], [N]. *)
Definition filteringAn : MultiSelect.t string :=
  press (press (press fruit "/") "A") "N".

(** The user leaves the filter with the escape key: the list stays narrowed
    to Banana. *)
Definition narrowed : MultiSelect.t string := press filteringAn "esc".


(** The answers [1], [2], [2], [0] to the accessible prompt. *)
Definition answers : list MultiSelect.Answer :=
  [MultiSelect.mkAnswer 1 []; MultiSelect.mkAnswer 2 []; MultiSelect.mkAnswer 2 [];
   MultiSelect.mkAnswer 0 [0]].

(** Two required selects, the cursor on the first. *)
Definition twoSelects : Group.t string :=
  Group.NewGroup Sample.neverElapsed Sample.rows
    [Group.FSelect Sample.requiredSelect; Group.FSelect Sample.requiredSelect].

End Demo.

(** * Properties *)

(** ** Selecting under a limit *)

Section ToggleSelectFacts.
Context {T : Type}.
Implicit Types (m : MultiSelect.t T) (o : Option.t T) (i : Z).

Lemma numSelected_nonneg m : 0 ≤ MultiSelect.numSelected m.
Proof. unfold MultiSelect.numSelected. lia. Qed.

(** Deselecting never fails and removes exactly the toggled index. *)
Lemma ToggleSelect_selected m i o o' :
  MultiSelect.selected m !! i = Some o' →
  MultiSelect.ToggleSelect i o m
  = (MultiSelect.set_selected (delete i (MultiSelect.selected m)) m, None).
Proof. intros H. unfold MultiSelect.ToggleSelect. by rewrite H. Qed.

(** An unselected index is refused once the count has reached the limit. *)
Lemma ToggleSelect_refused m i o :
  MultiSelect.selected m !! i = None →
  MultiSelect.limit m ≤ MultiSelect.numSelected m →
  MultiSelect.ToggleSelect i o m = (m, Some MultiSelect.limitError).
Proof.
  intros H Hlim. unfold MultiSelect.ToggleSelect, MultiSelect.numSelected in *.
  rewrite H. by rewrite (proj2 (Z.leb_le _ _) Hlim).
Qed.

(** An unselected index is added while the count is below the limit. *)
Lemma ToggleSelect_accepted m i o :
  MultiSelect.selected m !! i = None →
  MultiSelect.numSelected m < MultiSelect.limit m →
  MultiSelect.ToggleSelect i o m
  = (MultiSelect.set_selected (<[i := o]> (MultiSelect.selected m)) m, None).
Proof.
  intros H Hlim. unfold MultiSelect.ToggleSelect, MultiSelect.numSelected in *.
  rewrite H. by rewrite (proj2 (Z.leb_gt _ _) Hlim).
Qed.

(** Whatever the state, a call leaves the limit alone and never takes the
    count above the larger of the limit and the count before. *)
Lemma ToggleSelect_count m i o :
  MultiSelect.limit (MultiSelect.ToggleSelect i o m).1 = MultiSelect.limit m
  ∧ MultiSelect.numSelected (MultiSelect.ToggleSelect i o m).1
    ≤ Z.max (MultiSelect.limit m) (MultiSelect.numSelected m).
Proof.
  destruct (MultiSelect.selected m !! i) as [o'|] eqn:Hi.
  - rewrite (ToggleSelect_selected _ _ _ _ Hi). simpl. split; [done|].
    unfold MultiSelect.numSelected. simpl. rewrite map_size_delete, Hi. simpl. lia.
  - destruct (Z.lt_ge_cases (MultiSelect.numSelected m) (MultiSelect.limit m)) as [Hlt|Hge].
    + rewrite (ToggleSelect_accepted _ _ _ Hi Hlt). simpl. split; [done|].
      unfold MultiSelect.numSelected in *. simpl.
      rewrite (map_size_insert_None _ _ _ Hi). lia.
    + rewrite (ToggleSelect_refused _ _ _ Hi Hge). simpl. lia.
Qed.

(** Along any run of [ToggleSelect] calls from a state within its limit,
    the count stays within the limit. *)
Lemma ToggleSelect_run_within_limit (calls : list (Z * Option.t T)) m :
  MultiSelect.numSelected m ≤ MultiSelect.limit m →
  let m' := foldl (fun m c => (MultiSelect.ToggleSelect c.1 c.2 m).1) m calls in
  MultiSelect.limit m' = MultiSelect.limit m
  ∧ MultiSelect.numSelected m' ≤ MultiSelect.limit m.
Proof.
  revert m. induction calls as [|[i o] calls IH]; intros m Hm; simpl; [done|].
  destruct (ToggleSelect_count m i o) as [Hl Hc].
  destruct (IH (MultiSelect.ToggleSelect i o m).1) as [Hl' Hc']; [lia|].
  simpl in *. split; [congruence|lia].
Qed.

(** C2 (as amended): under a positive limit, [ToggleSelect] keeps the number
    of selected entries within the limit whenever it was within the limit
    before the call; selecting an unselected index when the count has reached
    the limit returns the limit error and leaves the state unchanged;
    toggling a selected index succeeds and removes it. *)
Theorem ToggleSelect_keeps_limit m i o :
  0 < MultiSelect.limit m →
  let r := MultiSelect.ToggleSelect i o m in
  MultiSelect.limit r.1 = MultiSelect.limit m
  ∧ (MultiSelect.numSelected m ≤ MultiSelect.limit m →
     MultiSelect.numSelected r.1 ≤ MultiSelect.limit m)
  ∧ (MultiSelect.selected m !! i = None →
     MultiSelect.limit m ≤ MultiSelect.numSelected m →
     r.2 = Some MultiSelect.limitError ∧ r.1 = m)
  ∧ (is_Some (MultiSelect.selected m !! i) →
     r.2 = None ∧ MultiSelect.selected r.1 = delete i (MultiSelect.selected m)).
Proof.
  intros Hpos r. subst r.
  destruct (MultiSelect.selected m !! i) as [o'|] eqn:Hi.
  - rewrite (ToggleSelect_selected _ _ _ _ Hi). simpl.
    split; [done|]. split; [|split; [done|done]].
    unfold MultiSelect.numSelected in *. simpl.
    rewrite map_size_delete, Hi. simpl. lia.
  - assert (Hno : ¬ is_Some (@None (Option.t T))) by (intros [? ?]; done).
    destruct (Z.lt_ge_cases (MultiSelect.numSelected m) (MultiSelect.limit m)) as [Hlt|Hge].
    + rewrite (ToggleSelect_accepted _ _ _ Hi Hlt). simpl.
      split; [done|]. split; [|split; [lia|done]].
      unfold MultiSelect.numSelected in *. simpl.
      rewrite (map_size_insert_None _ _ _ Hi). lia.
    + rewrite (ToggleSelect_refused _ _ _ Hi Hge). simpl.
      split; [done|]. split; [done|]. split; done.
Qed.

(** C3 (what the code does): with limit [0] the guard
    [len(m.selected) >= m.limit] always holds, so [ToggleSelect] refuses
    every unselected index with the limit error and leaves the state as it
    was. *)
Theorem ToggleSelect_limit_zero_refuses m i o :
  MultiSelect.limit m = 0 →
  MultiSelect.selected m !! i = None →
  MultiSelect.ToggleSelect i o m = (m, Some MultiSelect.limitError).
Proof.
  intros H0 Hi. apply ToggleSelect_refused; [done|].
  rewrite H0. apply numSelected_nonneg.
Qed.

(** C10: a field fresh from [NewMultiSelect] has limit [2]: selecting two
    distinct indices succeeds, selecting a third returns the limit error and
    changes nothing. *)
Theorem NewMultiSelect_default_limit (newId i j k : Z) (a b c : Option.t T) :
  i ≠ j → k ≠ i → k ≠ j →
  let m0 := MultiSelect.NewMultiSelect newId in
  let r1 := MultiSelect.ToggleSelect i a m0 in
  let r2 := MultiSelect.ToggleSelect j b r1.1 in
  let r3 := MultiSelect.ToggleSelect k c r2.1 in
  MultiSelect.limit m0 = 2 ∧
  r1.2 = None ∧ MultiSelect.selected r1.1 = {[ i := a ]} ∧
  r2.2 = None ∧ MultiSelect.selected r2.1 = <[ j := b ]> {[ i := a ]} ∧
  r3.2 = Some MultiSelect.limitError ∧ r3.1 = r2.1.
Proof.
  intros Hij Hki Hkj m0 r1 r2 r3.
  assert (H1 : r1 = (MultiSelect.set_selected {[ i := a ]} m0, None)).
  { subst r1. rewrite ToggleSelect_accepted; [done|done|].
    unfold MultiSelect.numSelected. simpl. rewrite map_size_empty.
    unfold MultiSelect.defaultLimit. lia. }
  assert (Hj : ({[ i := a ]} : gmap Z (Option.t T)) !! j = None)
    by (by apply lookup_singleton_ne).
  assert (H2 : r2 = (MultiSelect.set_selected (<[ j := b ]> {[ i := a ]}) m0, None)).
  { subst r2. rewrite H1. simpl. rewrite ToggleSelect_accepted; [done|done|].
    unfold MultiSelect.numSelected. simpl. rewrite map_size_singleton.
    unfold MultiSelect.defaultLimit. lia. }
  assert (H3 : r3 = (r2.1, Some MultiSelect.limitError)).
  { subst r3. rewrite H2. simpl. apply ToggleSelect_refused; simpl.
    - rewrite lookup_insert_ne by done. by apply lookup_singleton_ne.
    - unfold MultiSelect.numSelected. simpl.
      rewrite (map_size_insert_None _ _ _ Hj), map_size_singleton.
      unfold MultiSelect.defaultLimit. lia. }
  rewrite H3. rewrite H2 at 1 2. rewrite H1. simpl. done.
Qed.

End ToggleSelectFacts.

(** ** Executable checks for selecting under a limit *)

(** C2: the claim as stated fails on a field built through the public
    constructors: three pre-selected options under the default limit, and a
    refused selection leaves three entries selected. *)
Lemma ToggleSelect_limit_counterexample :
  MultiSelect.limit Sample.overfull = 2 ∧
  MultiSelect.numSelected Sample.overfull = 3 ∧
  (MultiSelect.ToggleSelect 3 Sample.optD Sample.overfull).2 = Some MultiSelect.limitError ∧
  ¬ (MultiSelect.numSelected (MultiSelect.ToggleSelect 3 Sample.optD Sample.overfull).1
     ≤ MultiSelect.limit Sample.overfull).
Proof. vm_compute. repeat split; try done. Qed.

(** C2, on a field with one of two allowed options selected. *)
Lemma ToggleSelect_keeps_limit_witness :
  let m := (MultiSelect.ToggleSelect 0 Sample.optA (MultiSelect.NewMultiSelect (T:=string) 1)).1 in
  let r := MultiSelect.ToggleSelect 1 Sample.optB m in
  MultiSelect.limit r.1 = MultiSelect.limit m
  ∧ (MultiSelect.numSelected m ≤ MultiSelect.limit m →
     MultiSelect.numSelected r.1 ≤ MultiSelect.limit m)
  ∧ (MultiSelect.selected m !! 1 = None →
     MultiSelect.limit m ≤ MultiSelect.numSelected m →
     r.2 = Some MultiSelect.limitError ∧ r.1 = m)
  ∧ (is_Some (MultiSelect.selected m !! 1) →
     r.2 = None ∧ MultiSelect.selected r.1 = delete 1 (MultiSelect.selected m)).
Proof.
  apply (ToggleSelect_keeps_limit
           (MultiSelect.ToggleSelect 0 Sample.optA (MultiSelect.NewMultiSelect (T:=string) 1)).1
           1 Sample.optB); vm_compute; done.
Defined.

(** C3, on [NewMultiSelect().Limit(0).Options(A, B)]. *)
Lemma ToggleSelect_limit_zero_refuses_witness :
  MultiSelect.ToggleSelect 0 Sample.optA Sample.unbounded
  = (Sample.unbounded, Some MultiSelect.limitError).
Proof.
  apply (ToggleSelect_limit_zero_refuses Sample.unbounded 0 Sample.optA); reflexivity.
Defined.

(** C10, on the indices 0, 1 and 2. *)
Lemma NewMultiSelect_default_limit_witness :
  let m0 := MultiSelect.NewMultiSelect (T:=string) 7 in
  let r1 := MultiSelect.ToggleSelect 0 Sample.optA m0 in
  let r2 := MultiSelect.ToggleSelect 1 Sample.optB r1.1 in
  let r3 := MultiSelect.ToggleSelect 2 Sample.optC r2.1 in
  MultiSelect.limit m0 = 2 ∧
  r1.2 = None ∧ MultiSelect.selected r1.1 = {[ 0 := Sample.optA ]} ∧
  r2.2 = None ∧ MultiSelect.selected r2.1 = <[ 1 := Sample.optB ]> {[ 0 := Sample.optA ]} ∧
  r3.2 = Some MultiSelect.limitError ∧ r3.1 = r2.1.
Proof.
  apply (NewMultiSelect_default_limit 7 0 1 2 Sample.optA Sample.optB Sample.optC); lia.
Defined.

(** ** Moving the cursor *)

(** Boolean tests on integers, as the propositions they decide. *)
Ltac bool_hyps :=
  repeat match goal with
  | H : (_ || _) = true |- _ => apply orb_true_iff in H; destruct H
  | H : (_ || _) = false |- _ => apply orb_false_iff in H; destruct H
  | H : (_ && _) = true |- _ => apply andb_true_iff in H; destruct H
  | H : (_ && _) = false |- _ => apply andb_false_iff in H; destruct H
  | H : negb _ = true |- _ => apply negb_true_iff in H
  | H : negb _ = false |- _ => apply negb_false_iff in H
  | H : (_ <=? _) = true |- _ => apply Z.leb_le in H
  | H : (_ <=? _) = false |- _ => apply Z.leb_gt in H
  | H : (_ <? _) = true |- _ => apply Z.ltb_lt in H
  | H : (_ <? _) = false |- _ => apply Z.ltb_ge in H
  | H : (_ =? _) = true |- _ => apply Z.eqb_eq in H
  | H : (_ =? _) = false |- _ => apply Z.eqb_neq in H
  end.

Ltac split_ifs :=
  repeat (match goal with
          | |- context [if ?b then _ else _] => destruct b eqn:?
          end; simpl in *).

Section MoveCursorFacts.
Context {T : Type}.
Implicit Types (m : MultiSelect.t T) (vp : viewport.Model).

Lemma clamp_spec n low high :
  low ≤ high → clamp n low high = Z.min high (Z.max low n).
Proof. intros H. unfold clamp. destruct (high <? low) eqn:E; [|done]. bool_hyps. lia. Qed.

Lemma half_bounds h : 0 ≤ h → 0 ≤ Z.quot h 2 ∧ 2 * Z.quot h 2 ≤ h.
Proof.
  intros H. rewrite Z.quot_div_nonneg by lia.
  split; [apply Z.div_pos; lia|]. apply Z.mul_div_le. lia.
Qed.

(** C6 (as amended): when the viewport shows exactly the filtered options,
    is at least one row high and no higher than the list, and the cursor is
    in range and visible before the call, the cursor is visible after any
    [moveCursor]; the cursor stays in range and the viewport keeps its
    height, its content and a non-negative offset. *)
Theorem moveCursor_keeps_cursor_visible m (dir : Z) :
  let n := len (MultiSelect.filteredOptions m) in
  1 ≤ viewport.Height (MultiSelect.viewport m) →
  viewport.Height (MultiSelect.viewport m) ≤ n →
  viewport.lines (MultiSelect.viewport m) = n →
  0 ≤ viewport.YOffset (MultiSelect.viewport m) →
  MultiSelect.cursor m < n →
  MultiSelect.cursorVisible m →
  let m' := MultiSelect.moveCursor dir m in
  MultiSelect.cursorVisible m'
  ∧ 0 ≤ MultiSelect.cursor m' < n
  ∧ MultiSelect.filteredOptions m' = MultiSelect.filteredOptions m
  ∧ viewport.Height (MultiSelect.viewport m') = viewport.Height (MultiSelect.viewport m)
  ∧ viewport.lines (MultiSelect.viewport m') = viewport.lines (MultiSelect.viewport m)
  ∧ 0 ≤ viewport.YOffset (MultiSelect.viewport m').
Proof.
  intros n Hh Hn Hl Hy Hc [Hv1 Hv2] m'. subst m' n.
  destruct (half_bounds (viewport.Height (MultiSelect.viewport m))) as [Hq1 Hq2]; [lia|].
  unfold MultiSelect.cursorVisible, MultiSelect.moveCursor.
  unfold MultiSelect.top, MultiSelect.up, MultiSelect.down, MultiSelect.bottom,
    MultiSelect.halfUp, MultiSelect.halfDown.
  unfold viewport.GotoTop, viewport.GotoBottom, viewport.HalfViewUp,
    viewport.HalfViewDown, viewport.LineUp, viewport.LineDown,
    viewport.AtTop, viewport.AtBottom.
  split_ifs; bool_hyps;
    unfold viewport.SetYOffset, viewport.maxYOffset in *; simpl in *;
    rewrite ?clamp_spec by lia;
    repeat split; try done; try lia.
Qed.

End MoveCursorFacts.

(** C6: the claim as stated fails on a field built through the public
    constructors and rendered once.  The cursor starts on the pre-selected
    fourth option, one row below a window of three rows; [moveCursor(down)]
    scrolls by one row, which leaves the cursor one row below the window
    again. *)
Lemma moveCursor_visibility_counterexample :
  viewport.Height (MultiSelect.viewport Sample.preselected)
    ≤ len (MultiSelect.filteredOptions Sample.preselected)
  ∧ MultiSelect.cursor (MultiSelect.moveCursor MultiSelect.down Sample.preselected) = 4
  ∧ MultiSelect.viewport (MultiSelect.moveCursor MultiSelect.down Sample.preselected)
    = viewport.mk 1 3 10
  ∧ ¬ MultiSelect.cursorVisible (MultiSelect.moveCursor MultiSelect.down Sample.preselected).
Proof.
  vm_compute. repeat split; try done. intros [_ H]. done.
Qed.

(** C6, on ten options behind a window of three rows, half a page down. *)
Lemma moveCursor_keeps_cursor_visible_witness :
  let m' := MultiSelect.moveCursor MultiSelect.halfDown Sample.scrolling in
  MultiSelect.cursorVisible m'
  ∧ 0 ≤ MultiSelect.cursor m' < len (MultiSelect.filteredOptions Sample.scrolling)
  ∧ MultiSelect.filteredOptions m' = MultiSelect.filteredOptions Sample.scrolling
  ∧ viewport.Height (MultiSelect.viewport m')
    = viewport.Height (MultiSelect.viewport Sample.scrolling)
  ∧ viewport.lines (MultiSelect.viewport m')
    = viewport.lines (MultiSelect.viewport Sample.scrolling)
  ∧ 0 ≤ viewport.YOffset (MultiSelect.viewport m').
Proof.
  apply (moveCursor_keeps_cursor_visible Sample.scrolling MultiSelect.halfDown);
    vm_compute; done.
Defined.

(** Under a narrowing filter the viewport still holds one row for every
    option, and [bottom] snaps it past the last filtered option: five of ten
    options, a window of three rows, and the cursor on row 4 with the window
    starting at row 7. *)
Example moveCursor_bottom_under_filter :
  let m := MultiSelect.set_filteredOptions [Sample.optA; Sample.optB; Sample.optC;
             Sample.optD; Sample.optA] false Sample.scrolling in
  let m' := MultiSelect.moveCursor MultiSelect.bottom m in
  MultiSelect.cursorVisible m
  ∧ MultiSelect.cursor m' = 4
  ∧ viewport.YOffset (MultiSelect.viewport m') = 7.
Proof. vm_compute. repeat split; done. Qed.

(** ** Deferred options *)

Section StaleResults.
Context {T : Type}.
Context (titleViewHeight descriptionViewHeight : MultiSelect.t T -> Z).
Context (filterUpdate : textinput.Model -> Msg T -> textinput.Model * list Cmd).
Implicit Types (m : MultiSelect.t T).

Local Abbreviation Update := (MultiSelect.Update titleViewHeight descriptionViewHeight filterUpdate).

(** What [updateViewportHeight] leaves alone. *)
Lemma updateViewportHeight_keeps m :
  let m' := MultiSelect.updateViewportHeight titleViewHeight descriptionViewHeight m in
  MultiSelect.options m' = MultiSelect.options m
  ∧ MultiSelect.filteredOptions m' = MultiSelect.filteredOptions m
  ∧ MultiSelect.value m' = MultiSelect.value m
  ∧ MultiSelect.selected m' = MultiSelect.selected m
  ∧ MultiSelect.cursor m' = MultiSelect.cursor m
  ∧ MultiSelect.err m' = MultiSelect.err m
  ∧ MultiSelect.id m' = MultiSelect.id m
  ∧ MultiSelect.filtering m' = MultiSelect.filtering m
  ∧ MultiSelect.filter m' = MultiSelect.filter m.
Proof.
  unfold MultiSelect.updateViewportHeight.
  destruct (MultiSelect.height m <=? 0); simpl; repeat split; done.
Qed.

(** C7: a result computed for a bindings hash other than the recorded one is
    dropped: [Update] returns, and the options, their cache and hash, the
    filtered options, the bound value, the selection, the cursor and the
    error are what they were. *)
Theorem stale_options_result_discarded (order : list Z) (env : Bindings) m
    (i : Z) (opts : list (Option.t T)) (hash : Z) :
  hash ≠ Eval.bindingsHash (MultiSelect.options m) →
  ∃ m' cmds,
    Update order env m (updateOptionsMsg i opts hash) = Some (m', cmds)
    ∧ MultiSelect.options m' = MultiSelect.options m
    ∧ MultiSelect.filteredOptions m' = MultiSelect.filteredOptions m
    ∧ MultiSelect.value m' = MultiSelect.value m
    ∧ MultiSelect.selected m' = MultiSelect.selected m
    ∧ MultiSelect.cursor m' = MultiSelect.cursor m
    ∧ MultiSelect.err m' = MultiSelect.err m.
Proof.
  intros Hstale. unfold MultiSelect.Update.
  destruct (updateViewportHeight_keeps m) as (Ho & Hf & Hv & Hs & Hc & He & Hi & Hg & Hx).
  set (m1 := MultiSelect.updateViewportHeight _ _ m) in *.
  destruct (MultiSelect.filtering m1) eqn:Hfilt.
  - destruct (filterUpdate (MultiSelect.filter m1) (updateOptionsMsg i opts hash))
      as [f c] eqn:Hfu. simpl.
    assert (Hne : (hash =? Eval.bindingsHash (MultiSelect.options m1)) = false)
      by (rewrite Ho; by apply Z.eqb_neq).
    rewrite Hne, andb_false_r. eexists _, _. split; [done|]. simpl. done.
  - simpl.
    assert (Hne : (hash =? Eval.bindingsHash (MultiSelect.options m1)) = false)
      by (rewrite Ho; by apply Z.eqb_neq).
    rewrite Hne, andb_false_r. eexists _, _. split; [done|]. done.
Qed.

(** The other direction: a result for the recorded hash, addressed to this
    field, replaces the options and the filtered options and is cached under
    that hash. *)
Lemma current_options_result_applied (order : list Z) (env : Bindings) m
    (opts : list (Option.t T)) :
  ∃ m' cmds,
    Update order env m
      (updateOptionsMsg (MultiSelect.id m) opts (Eval.bindingsHash (MultiSelect.options m)))
    = Some (m', cmds)
    ∧ Eval.val (MultiSelect.options m') = opts
    ∧ MultiSelect.filteredOptions m' = opts
    ∧ Eval.cache (MultiSelect.options m') !! Eval.bindingsHash (MultiSelect.options m)
      = Some opts.
Proof.
  unfold MultiSelect.Update.
  destruct (updateViewportHeight_keeps m) as (Ho & Hf & Hv & Hs & Hc & He & Hi & Hg & Hx).
  set (m1 := MultiSelect.updateViewportHeight _ _ m) in *.
  destruct (MultiSelect.filtering m1) eqn:Hfilt.
  - destruct (filterUpdate (MultiSelect.filter m1) _) as [f c] eqn:Hfu. simpl.
    rewrite Hi, Ho, !Z.eqb_refl. simpl. eexists _, _. split; [done|]. simpl.
    by rewrite lookup_insert_eq.
  - simpl. rewrite Hi, Ho, !Z.eqb_refl. simpl. eexists _, _. split; [done|]. simpl.
    by rewrite lookup_insert_eq.
Qed.

End StaleResults.

(** The scenario of C7: a recomputation was requested under hash [11], the
    bindings changed and one was requested under hash [22]; the result for
    [11] arrives and is dropped. *)
Lemma stale_options_result_discarded_witness :
  Eval.bindingsHash (MultiSelect.options Sample.refreshedTwice) = 22
  ∧ ∃ m' cmds,
    MultiSelect.Update Sample.oneLine Sample.oneLine Sample.idleFilter [] Sample.noBindings
      Sample.refreshedTwice (updateOptionsMsg 1 [Sample.optA; Sample.optB] 11)
    = Some (m', cmds)
    ∧ MultiSelect.options m' = MultiSelect.options Sample.refreshedTwice
    ∧ MultiSelect.filteredOptions m' = MultiSelect.filteredOptions Sample.refreshedTwice
    ∧ MultiSelect.value m' = MultiSelect.value Sample.refreshedTwice
    ∧ MultiSelect.selected m' = MultiSelect.selected Sample.refreshedTwice
    ∧ MultiSelect.cursor m' = MultiSelect.cursor Sample.refreshedTwice
    ∧ MultiSelect.err m' = MultiSelect.err Sample.refreshedTwice.
Proof.
  split; [reflexivity|].
  apply (stale_options_result_discarded Sample.oneLine Sample.oneLine Sample.idleFilter
           [] Sample.noBindings Sample.refreshedTwice 1 [Sample.optA; Sample.optB] 11).
  vm_compute. done.
Defined.

(** ** Committing the selection *)

(** C5 (what the code does): [updateValue] ranges over the selection map,
    and both orders of its two keys are orders Go may take.  Committing the
    same state under the one and then the other gives the bound values
    [a, b] and [b, a], and a validator that looks at the order accepts the
    first and refuses the second. *)
Theorem updateValue_follows_range_order :
  let m := Sample.twoSelected in
  let m1 := MultiSelect.updateValue [0; 1] m in
  let m2 := MultiSelect.updateValue [1; 0] m1 in
  MultiSelect.rangeOrder m [0; 1]
  ∧ MultiSelect.rangeOrder m1 [1; 0]
  ∧ MultiSelect.selected m1 = MultiSelect.selected m
  ∧ MultiSelect.value m1 = ["a"; "b"] ∧ MultiSelect.err m1 = None
  ∧ MultiSelect.value m2 = ["b"; "a"] ∧ MultiSelect.err m2 = Some "a must come first".
Proof.
  vm_compute. repeat split; try done. apply perm_swap.
Qed.

(** ** Toggling all options *)

Section ToggleAllFacts.
Context {T : Type}.

(** The all-or-nothing toggle writes the options' flags and never the
    selection map, the bound value or the limit. *)
Lemma toggleAllFlags_keeps_selection (m : MultiSelect.t T) :
  MultiSelect.selected (MultiSelect.toggleAllFlags m) = MultiSelect.selected m
  ∧ MultiSelect.value (MultiSelect.toggleAllFlags m) = MultiSelect.value m.
Proof. unfold MultiSelect.toggleAllFlags. by destruct (MultiSelect.filteredAliased m). Qed.

End ToggleAllFacts.

(** C4 (what the code does): with limit [0], two unselected options and the
    [ToggleAll] key, [Update] sets the flag of every option and leaves the
    selection map empty, so the committed value is empty too. *)
Theorem ToggleAll_leaves_selection_empty :
  ∃ m',
    MultiSelect.Update Sample.oneLine Sample.oneLine Sample.idleFilter [] Sample.noBindings
      Sample.unboundedKeyed (KeyMsg "ctrl+a") = Some (m', [])
    ∧ MultiSelect.limit m' = 0
    ∧ Option.selected <$> MultiSelect.filteredOptions Sample.unboundedKeyed = [false; false]
    ∧ Option.selected <$> MultiSelect.filteredOptions m' = [true; true]
    ∧ MultiSelect.selected m' = ∅
    ∧ MultiSelect.value m' = [].
Proof. eexists. vm_compute. repeat split; done. Qed.

(** ** Accessible mode against interactive mode *)

(** C8 (what the code does).  The select: in interactive mode the Next key
    on the refused option [A] records the error and commits nothing; the
    accessible run on the answer [1] commits the value of [A] and never calls
    the validator.  The multi-select: in interactive mode toggling [A] and
    pressing Next commits [a] once; the accessible run on the answers [1]
    and [0] commits it twice. *)
Theorem runAccessible_differs_from_interactive :
  Select.Update Sample.picky (KeyMsg "enter")
  = Some (Select.set_err (Some "a is not allowed") Sample.picky, [])
  ∧ Select.runAccessible 1 Sample.picky = Some (Select.set_value "a" Sample.picky)
  ∧ Select.validate Sample.picky "a" = Some "a is not allowed"
  ∧ (∃ m1 m2,
       MultiSelect.Update Sample.oneLine Sample.oneLine Sample.idleFilter [0]
         Sample.noBindings Sample.plain (KeyMsg " ") = Some (m1, [])
       ∧ MultiSelect.Update Sample.oneLine Sample.oneLine Sample.idleFilter [0]
           Sample.noBindings m1 (KeyMsg "enter") = Some (m2, [CmdNextField])
       ∧ MultiSelect.value m2 = ["a"])
  ∧ MultiSelect.value <$>
      MultiSelect.runAccessible [MultiSelect.mkAnswer 1 []; MultiSelect.mkAnswer 0 [0]]
        Sample.plain
    = Some ["a"; "a"].
Proof.
  split; [vm_compute; reflexivity|]. split; [vm_compute; reflexivity|].
  split; [vm_compute; reflexivity|]. split; [|vm_compute; reflexivity].
  eexists _, _. split; [vm_compute; reflexivity|]. split; vm_compute; reflexivity.
Qed.

(** The accessible run of a select does not depend on its validator. *)
Lemma Select_runAccessible_ignores_validate {T : Type} (s : Select.t T)
    (f : T -> error) (choice : Z) :
  Select.value <$> Select.runAccessible choice
    (Select.mk (Select.value s) (Select.title s) (Select.description s) f (Select.err s)
       (Select.options s) (Select.selected s) (Select.focused s) (Select.accessible s)
       (Select.keymap s))
  = Select.value <$> Select.runAccessible choice s.
Proof.
  unfold Select.runAccessible. simpl. by destruct (index (Select.options s) (choice - 1)).
Qed.

(** ** Groups: advancing and scrolling *)

Section GroupFacts.
Context {T : Type}.
Context (titleViewHeight descriptionViewHeight : MultiSelect.t T -> Z).
Context (spinnerElapsed : MultiSelect.t T -> bool).
Context (filterUpdate : textinput.Model -> Msg T -> textinput.Model * list Cmd).
Context (textareaUpdate : textarea.Model -> Msg T -> textarea.Model * list Cmd).
Context (viewHeight : Group.Field T -> Z).
Implicit Types (g : Group.t T) (f : Group.Field T) (fs : list (Group.Field T)).

Local Abbreviation GUpdate :=
  (Group.Update titleViewHeight descriptionViewHeight spinnerElapsed filterUpdate
     textareaUpdate viewHeight).
Local Abbreviation rowsBefore := (Group.rowsBefore viewHeight).
Local Abbreviation fieldView := (Group.fieldView spinnerElapsed).

Lemma index_Some {A : Type} (l : list A) (i : Z) (x : A) :
  index l i = Some x ↔ 0 ≤ i ∧ l !! Z.to_nat i = Some x.
Proof.
  unfold index. destruct (i <? 0) eqn:E; bool_hyps.
  - split; [done|]. intros [? _]. lia.
  - split; [intros H; split; [lia|done] | by intros [_ H]].
Qed.

Lemma index_in_range {A : Type} (l : list A) (i : Z) :
  0 ≤ i < len l → ∃ x, index l i = Some x.
Proof.
  intros [H0 H1]. unfold len in H1.
  destruct (lookup_lt_is_Some_2 l (Z.to_nat i)) as [x Hx]; [lia|].
  exists x. by apply index_Some.
Qed.

Lemma index_bounds {A : Type} (l : list A) (i : Z) (x : A) :
  index l i = Some x → 0 ≤ i < len l.
Proof.
  intros [H0 H]%index_Some. apply lookup_lt_Some in H. unfold len. lia.
Qed.

Lemma storeField_read i f g x :
  index (Group.fields g) i = Some x →
  index (Group.fields (Group.storeField i f g)) i = Some f.
Proof.
  intros [H0 H]%index_Some. apply index_Some. split; [done|]. simpl.
  apply list_lookup_insert_eq. by apply lookup_lt_Some in H.
Qed.

Lemma storeField_len i f g :
  len (Group.fields (Group.storeField i f g)) = len (Group.fields g).
Proof. unfold len. simpl. by rewrite length_insert. Qed.

(** [setCurrent] on a group whose cursor is in range: it returns, the cursor
    is the clamped target, and the viewport is not touched. *)
Lemma setCurrent_total (o : Group.Orders) (current : Z) g :
  0 ≤ Group.Page (Group.paginator g) < len (Group.fields g) →
  ∃ g' c,
    Group.setCurrent o current g = Some (g', c)
    ∧ Group.Page (Group.paginator g') = clamp current 0 (len (Group.fields g) - 1)
    ∧ Group.TotalPages (Group.paginator g') = Group.TotalPages (Group.paginator g)
    ∧ len (Group.fields g') = len (Group.fields g)
    ∧ Group.viewport g' = Group.viewport g.
Proof.
  intros Hp. unfold Group.setCurrent.
  destruct (index_in_range _ _ Hp) as [f Hf]. rewrite Hf. simpl.
  destruct (Group.fieldBlur (Group.blurOrder o) f) as [f1 c1]. simpl.
  set (g1 := Group.storeField _ f1 g).
  assert (Hl1 : len (Group.fields g1) = len (Group.fields g)) by apply storeField_len.
  set (p := clamp current 0 (len (Group.fields g1) - 1)).
  assert (Hp' : 0 ≤ p < len (Group.fields g1)).
  { subst p. rewrite clamp_spec by lia. lia. }
  destruct (index_in_range (Group.fields g1) p Hp') as [f2 Hf2].
  subst p g1. simpl in *. rewrite Hf2. simpl.
  destruct (Group.fieldFocus (Group.focusOrder o) f2) as [f3 c2].
  eexists _, _. split; [done|]. simpl.
  unfold len in *. rewrite !length_insert in *. done.
Qed.

(** A field's [Update] returns on the navigation messages. *)
Lemma fieldUpdate_navigation (order : list Z) (env : Bindings) f (msg : Msg T) :
  msg = nextFieldMsg ∨ msg = prevFieldMsg →
  ∃ f' c,
    Group.fieldUpdate titleViewHeight descriptionViewHeight filterUpdate textareaUpdate
      order env f msg = Some (f', c).
Proof.
  intros Hmsg. destruct f as [s|m|x]; simpl.
  - destruct Hmsg as [-> | ->]; simpl; eauto.
  - unfold MultiSelect.Update.
    destruct (MultiSelect.filtering _);
      [destruct (filterUpdate _ _)|]; destruct Hmsg as [-> | ->]; simpl; eauto.
  - eauto.
Qed.

(** Once an Advance message has reached the group, nothing gates it: the
    cursor moves to the next field (or stays on the last), and from the last
    field the next-group command is emitted, whatever errors the fields
    hold. *)
Lemma Group_Update_advances (o : Group.Orders) (env : Bindings) g :
  0 ≤ Group.Page (Group.paginator g) < len (Group.fields g) →
  ∃ g' cmds,
    GUpdate o env g nextFieldMsg = Some (g', cmds)
    ∧ Group.Page (Group.paginator g')
      = clamp (Group.Page (Group.paginator g) + 1) 0 (len (Group.fields g) - 1)
    ∧ (Group.TotalPages (Group.paginator g) - 1 ≤ Group.Page (Group.paginator g) →
       CmdNextGroup ∈ cmds).
Proof.
  intros Hp. unfold Group.Update.
  destruct (index_in_range _ _ Hp) as [f Hf]. rewrite Hf. simpl.
  destruct (fieldUpdate_navigation (Group.updateOrder o) env f nextFieldMsg) as (f' & c & Hu);
    [by left|].
  rewrite Hu. simpl.
  set (g1 := Group.storeField _ f' g).
  assert (Hl1 : len (Group.fields g1) = len (Group.fields g)) by apply storeField_len.
  destruct (setCurrent_total o (Group.Page (Group.paginator g) + 1) g1)
    as (g2 & c2 & Hs & Hpage & Htot & Hlen & Hvp).
  { rewrite Hl1. done. }
  change (Group.Page (Group.paginator g1)) with (Group.Page (Group.paginator g)).
  rewrite Hs. simpl. rewrite Htot.
  change (Group.TotalPages (Group.paginator g1)) with (Group.TotalPages (Group.paginator g)).
  destruct (Group.TotalPages (Group.paginator g) - 1 <=? Group.Page (Group.paginator g)) eqn:E;
    bool_hyps.
  - eexists _, _. split; [done|]. rewrite Hpage, Hl1. split; [done|].
    intros _. apply elem_of_app. right. by apply list_elem_of_singleton.
  - eexists _, _. split; [done|]. simpl. rewrite Hpage, Hl1. split; [done|]. lia.
Qed.


(** The multi-select gates in the same way: its Next or Submit key commits
    the selection, and when the validator refuses the committed value the
    field keeps the error and hands back no command. *)
Lemma MultiSelect_refuses_Advance (order : list Z) (k : string) (cmds : list Cmd)
    (m : MultiSelect.t T) (e : string) :
  let km := MultiSelect.keymap m in
  key.Matches k [MultiSelect.Filter km] = false →
  key.Matches k [MultiSelect.SetFilter km] = false →
  key.Matches k [MultiSelect.ClearFilter km] = false →
  key.Matches k [MultiSelect.Up km] = false →
  key.Matches k [MultiSelect.Down km] = false →
  key.Matches k [MultiSelect.GotoTop km] = false →
  key.Matches k [MultiSelect.GotoBottom km] = false →
  key.Matches k [MultiSelect.HalfPageUp km] = false →
  key.Matches k [MultiSelect.HalfPageDown km] = false →
  key.Matches k [MultiSelect.Toggle km] = false →
  key.Matches k [MultiSelect.ToggleAll km] = false →
  key.Matches k [MultiSelect.Prev km] = false →
  key.Matches k [MultiSelect.Next km; MultiSelect.Submit km] = true →
  MultiSelect.validate m (MultiSelect.value (MultiSelect.updateValue order m)) = Some e →
  ∃ m',
    MultiSelect.updateKey order k cmds m = Some (m', [])
    ∧ MultiSelect.err m' = Some e
    ∧ MultiSelect.selected m' = MultiSelect.selected m.
Proof.
  intros km H1 H2 H3 H4 H5 H6 H7 H8 H9 H10 H11 H12 H13 Hval.
  unfold MultiSelect.updateKey. simpl. fold km.
  rewrite H1, H2, H3, H4, H5, H6, H7, H8, H9, H10, H11, H12, H13. simpl.
  unfold MultiSelect.updateValue in *. simpl in *. rewrite Hval. simpl.
  eexists. split; [done|]. simpl. done.
Qed.



End GroupFacts.



(** ** Executable checks for groups *)





(** * Further properties of the fields and the group *)

(** ** The selection map *)

Section SelectionFacts.
Context {T : Type}.
Context (titleViewHeight descriptionViewHeight : MultiSelect.t T -> Z).
Implicit Types (m : MultiSelect.t T) (o : Option.t T) (i k : Z)
  (sel : gmap Z (Option.t T)).

Lemma initSelectedFrom_lookup (opts : list (Option.t T)) :
  ∀ i sel k,
    MultiSelect.initSelectedFrom i opts sel !! k
    = match (if decide (i ≤ k) then opts !! Z.to_nat (k - i) else None) with
      | Some o => if Option.selected o then Some o else sel !! k
      | None => sel !! k
      end.
Proof.
  induction opts as [|o opts IH]; intros i sel k; simpl.
  - by destruct (decide (i ≤ k)).
  - rewrite IH.
    destruct (decide (i + 1 ≤ k)) as [H1|H1].
    + destruct (decide (i ≤ k)) as [_|]; [|lia].
      replace (Z.to_nat (k - i)) with (S (Z.to_nat (k - (i + 1)))) by lia. simpl.
      assert (Hne : ∀ s : gmap Z (Option.t T),
                (if Option.selected o then <[i:=o]> s else s) !! k = s !! k).
      { intros s. destruct (Option.selected o); [|done]. apply lookup_insert_ne. lia. }
      rewrite Hne. done.
    + destruct (decide (i ≤ k)) as [H2|H2].
      * assert (k = i) as -> by lia. replace (Z.to_nat (i - i)) with 0%nat by lia. simpl.
        destruct (Option.selected o); [by rewrite lookup_insert_eq|done].
      * destruct (Option.selected o); [|done]. apply lookup_insert_ne. lia.
Qed.

(** X1: [Options] records under index [k] the [k]-th of the new options when
    that option is flagged as pre-selected, and at every other index keeps the
    entry the selection map already had: the map is never cleared. *)
Theorem Options_selects_flagged (opts : list (Option.t T)) m k :
  MultiSelect.selected (MultiSelect.Options titleViewHeight descriptionViewHeight opts m) !! k
  = match index opts k with
    | Some o => if Option.selected o then Some o else MultiSelect.selected m !! k
    | None => MultiSelect.selected m !! k
    end.
Proof.
  unfold MultiSelect.Options. destruct (len opts <=? 0) eqn:E.
  - bool_hyps. destruct opts; [|unfold len in E; simpl in E; lia].
    unfold index. by destruct (k <? 0).
  - assert (Hs : ∀ x, MultiSelect.selected
                        (MultiSelect.updateViewportHeight titleViewHeight
                           descriptionViewHeight x) = MultiSelect.selected x).
    { intros x. unfold MultiSelect.updateViewportHeight.
      by destruct (MultiSelect.height x <=? 0). }
    rewrite Hs. simpl. rewrite initSelectedFrom_lookup. unfold index.
    destruct (decide (0 ≤ k)) as [H|H].
    + destruct (k <? 0) eqn:E'; bool_hyps; [lia|]. by rewrite Z.sub_0_r.
    + destruct (k <? 0) eqn:E'; bool_hyps; [done|lia].
Qed.

Lemma foldr_min_least (ks : list Z) (k0 : Z) :
  foldr Z.min k0 ks ∈ k0 :: ks ∧ ∀ x, x ∈ k0 :: ks → foldr Z.min k0 ks ≤ x.
Proof.
  induction ks as [|a ks [IHin IHle]]; simpl.
  - split; [by left|]. intros x Hx. apply list_elem_of_singleton in Hx. lia.
  - split.
    + destruct (Z.min_spec a (foldr Z.min k0 ks)) as [[_ ->]|[_ ->]].
      * right. by left.
      * apply elem_of_cons in IHin as [->|Hin]; [by left|]. right. by right.
    + intros x Hx.
      assert (Hx' : x = a ∨ x ∈ k0 :: ks).
      { apply elem_of_cons in Hx as [->|Hx]; [right; by left|].
        apply elem_of_cons in Hx as [->|Hx]; [by left|right; by right]. }
      destruct Hx' as [->|Hx']; [lia|]. specialize (IHle x Hx'). lia.
Qed.

(** X2: [lowestSelectedIndex] is [0] for an empty selection; otherwise it is
    a selected index and no selected index lies below it, whatever order the
    keys of the map are collected in. *)
Theorem lowestSelectedIndex_least m :
  (MultiSelect.selected m = ∅ → MultiSelect.lowestSelectedIndex m = 0)
  ∧ (∀ k o, MultiSelect.selected m !! k = Some o →
       is_Some (MultiSelect.selected m !! MultiSelect.lowestSelectedIndex m)
       ∧ MultiSelect.lowestSelectedIndex m ≤ k).
Proof.
  unfold MultiSelect.lowestSelectedIndex. split.
  - intros ->. by rewrite map_to_list_empty.
  - intros k o Hk.
    assert (Hkeys : ∀ x, x ∈ (map_to_list (MultiSelect.selected m)).*1
                         ↔ is_Some (MultiSelect.selected m !! x)).
    { intros x. rewrite list_elem_of_fmap. split.
      - intros [[x' v] [-> Hin]]. apply elem_of_map_to_list in Hin. by exists v.
      - intros [v Hv]. exists (x, v). split; [done|]. by apply elem_of_map_to_list. }
    assert (Hin : k ∈ (map_to_list (MultiSelect.selected m)).*1) by (apply Hkeys; eauto).
    destruct ((map_to_list (MultiSelect.selected m)).*1) as [|k0 ks] eqn:El.
    + by apply not_elem_of_nil in Hin.
    + destruct (foldr_min_least ks k0) as [Hmin Hle]. split.
      * apply Hkeys. exact Hmin.
      * by apply Hle.
Qed.

(** X3: after [ToggleSelect(i, o)] the index [i] is selected exactly when it
    was unselected and the count was below the limit; every other index
    keeps its entry, and nothing but the selection map changes. *)
Theorem ToggleSelect_flips_one_index m i o :
  let r := MultiSelect.ToggleSelect i o m in
  (is_Some (MultiSelect.selected r.1 !! i)
   ↔ MultiSelect.selected m !! i = None ∧ MultiSelect.numSelected m < MultiSelect.limit m)
  ∧ (∀ k, k ≠ i → MultiSelect.selected r.1 !! k = MultiSelect.selected m !! k)
  ∧ r.1 = MultiSelect.set_selected (MultiSelect.selected r.1) m.
Proof.
  intros r. subst r.
  destruct (MultiSelect.selected m !! i) as [o'|] eqn:Hi.
  - rewrite (ToggleSelect_selected _ _ _ _ Hi). simpl. split; [|split; [|done]].
    + rewrite lookup_delete_eq. split; [intros [? ?]; done|intros [? _]; done].
    + intros k Hk. by rewrite lookup_delete_ne.
  - destruct (Z.lt_ge_cases (MultiSelect.numSelected m) (MultiSelect.limit m)) as [Hlt|Hge].
    + rewrite (ToggleSelect_accepted _ _ _ Hi Hlt). simpl. split; [|split; [|done]].
      * rewrite lookup_insert_eq. split; [done|eauto].
      * intros k Hk. by rewrite lookup_insert_ne.
    + rewrite (ToggleSelect_refused _ _ _ Hi Hge). simpl. split; [|split; [done|]].
      * rewrite Hi. split; [intros [? ?]; done|intros [_ ?]; lia].
      * by destruct m.
Qed.

(** X4: selecting an unselected index while there is room and toggling it
    again gives back the state the field was in, with no error. *)
Theorem ToggleSelect_select_deselect m i o o' :
  MultiSelect.selected m !! i = None →
  MultiSelect.numSelected m < MultiSelect.limit m →
  MultiSelect.ToggleSelect i o' (MultiSelect.ToggleSelect i o m).1 = (m, None).
Proof.
  intros Hi Hlt. rewrite (ToggleSelect_accepted _ _ _ Hi Hlt). simpl.
  unfold MultiSelect.ToggleSelect. simpl. rewrite lookup_insert_eq.
  rewrite delete_insert_eq, (delete_id _ _ Hi). by destruct m.
Qed.

Lemma omap_keys_values sel (l : list (Z * Option.t T)) :
  Forall (fun kv => sel !! kv.1 = Some kv.2) l →
  omap (fun i => Option.Value <$> sel !! i) l.*1 = (fun kv => Option.Value kv.2) <$> l.
Proof.
  induction 1 as [|[k v] l Hkv _ IH]; csimpl; [done|].
  simpl in Hkv. rewrite Hkv. csimpl. by rewrite IH.
Qed.

(** X5: when [range] visits the keys of the selection map in any of the
    orders it may take, [updateValue] binds the values of the selected
    options, each once (a permutation of the values in the map), runs the
    validator on the bound value and leaves the selection alone. *)
Theorem updateValue_binds_selected (order : list Z) m :
  MultiSelect.rangeOrder m order →
  let m' := MultiSelect.updateValue order m in
  MultiSelect.value m'
    ≡ₚ (fun kv => Option.Value kv.2) <$> map_to_list (MultiSelect.selected m)
  ∧ len (MultiSelect.value m') = MultiSelect.numSelected m
  ∧ MultiSelect.err m' = MultiSelect.validate m (MultiSelect.value m')
  ∧ MultiSelect.selected m' = MultiSelect.selected m.
Proof.
  intros Hord m'. subst m'. unfold MultiSelect.updateValue. simpl.
  assert (Hp : omap (fun i => Option.Value <$> MultiSelect.selected m !! i) order
               ≡ₚ (fun kv => Option.Value kv.2) <$> map_to_list (MultiSelect.selected m)).
  { unfold MultiSelect.rangeOrder in Hord. rewrite Hord.
    rewrite omap_keys_values; [done|].
    apply Forall_forall. intros [k v] Hin. by apply elem_of_map_to_list in Hin. }
  split; [done|]. split; [|done].
  unfold len, MultiSelect.numSelected. rewrite Hp, length_fmap, length_map_to_list. done.
Qed.

End SelectionFacts.

(** ** Keys of the multi-select *)

Section KeyFacts.
Context {T : Type}.
Context (titleViewHeight descriptionViewHeight : MultiSelect.t T -> Z).
Context (filterUpdate : textinput.Model -> Msg T -> textinput.Model * list Cmd).
Implicit Types (m : MultiSelect.t T) (k : string) (cmds c : list Cmd).

Local Abbreviation MUpdate :=
  (MultiSelect.Update titleViewHeight descriptionViewHeight filterUpdate).

(** A key cannot match a list of bindings none of which is enabled. *)
Lemma Matches_disabled k (bs : list key.Binding) :
  Forall (fun b => key.Enabled b = false) bs → key.Matches k bs = false.
Proof.
  unfold key.Matches. induction 1 as [|b bs Hb _ IH]; simpl; [done|].
  rewrite IH, orb_false_r. rewrite Hb.
  induction (key.keys b) as [|v vs IHv]; simpl; [done|]. by rewrite andb_false_r.
Qed.

(** What recomputing the filter, moving the cursor, committing and toggling
    leave alone. *)
Lemma refilter_keeps m :
  let m' := MultiSelect.refilter m in
  MultiSelect.validate m' = MultiSelect.validate m
  ∧ MultiSelect.selected m' = MultiSelect.selected m
  ∧ MultiSelect.value m' = MultiSelect.value m
  ∧ MultiSelect.err m' = MultiSelect.err m
  ∧ MultiSelect.options m' = MultiSelect.options m
  ∧ MultiSelect.keymap m' = MultiSelect.keymap m
  ∧ MultiSelect.limit m' = MultiSelect.limit m.
Proof. unfold MultiSelect.refilter. repeat case_match; done. Qed.

Lemma moveCursor_keeps (dir : Z) m :
  let m' := MultiSelect.moveCursor dir m in
  MultiSelect.validate m' = MultiSelect.validate m
  ∧ MultiSelect.selected m' = MultiSelect.selected m
  ∧ MultiSelect.value m' = MultiSelect.value m
  ∧ MultiSelect.err m' = MultiSelect.err m
  ∧ MultiSelect.options m' = MultiSelect.options m
  ∧ MultiSelect.filteredOptions m' = MultiSelect.filteredOptions m
  ∧ MultiSelect.keymap m' = MultiSelect.keymap m
  ∧ MultiSelect.limit m' = MultiSelect.limit m.
Proof. unfold MultiSelect.moveCursor. repeat case_match; done. Qed.

Lemma updateValue_keeps (order : list Z) m :
  let m' := MultiSelect.updateValue order m in
  MultiSelect.validate m' = MultiSelect.validate m
  ∧ MultiSelect.selected m' = MultiSelect.selected m
  ∧ MultiSelect.options m' = MultiSelect.options m
  ∧ MultiSelect.filteredOptions m' = MultiSelect.filteredOptions m
  ∧ MultiSelect.cursor m' = MultiSelect.cursor m
  ∧ MultiSelect.keymap m' = MultiSelect.keymap m
  ∧ MultiSelect.limit m' = MultiSelect.limit m.
Proof. done. Qed.

Lemma ToggleSelect_keeps (i : Z) (o : Option.t T) m :
  let m' := (MultiSelect.ToggleSelect i o m).1 in
  MultiSelect.validate m' = MultiSelect.validate m
  ∧ MultiSelect.options m' = MultiSelect.options m
  ∧ MultiSelect.filteredOptions m' = MultiSelect.filteredOptions m
  ∧ MultiSelect.cursor m' = MultiSelect.cursor m
  ∧ MultiSelect.keymap m' = MultiSelect.keymap m
  ∧ MultiSelect.limit m' = MultiSelect.limit m.
Proof. unfold MultiSelect.ToggleSelect. repeat case_match; done. Qed.

Lemma toggleAllFlags_keeps m :
  MultiSelect.validate (MultiSelect.toggleAllFlags m) = MultiSelect.validate m.
Proof. unfold MultiSelect.toggleAllFlags. by case_match. Qed.

(** The commands the key case can hand back: what the filter scheduled, the
    blink of the filter gaining focus, nothing, or one navigation command;
    the last only for a key bound to it and a committed value the validator
    accepts. *)
Lemma updateKey_outcome (order : list Z) k cmds m m' c :
  MultiSelect.updateKey order k cmds m = Some (m', c) →
  MultiSelect.validate m' = MultiSelect.validate m
  ∧ (c = cmds ∨ c = [CmdBlink] ∨ c = []
     ∨ (c = [CmdPrevField]
        ∧ key.Matches k [MultiSelect.Prev (MultiSelect.keymap m)] = true
        ∧ MultiSelect.err m' = None
        ∧ MultiSelect.validate m (MultiSelect.value m') = None)
     ∨ (c = [CmdNextField]
        ∧ key.Matches k [MultiSelect.Next (MultiSelect.keymap m);
                         MultiSelect.Submit (MultiSelect.keymap m)] = true
        ∧ MultiSelect.err m' = None
        ∧ MultiSelect.validate m (MultiSelect.value m') = None)).
Proof.
  unfold MultiSelect.updateKey. intros H.
  repeat case_match; simplify_eq; unfold textinput.Focus in *; simplify_eq.
  all: split;
    [ repeat first
        [ rewrite (proj1 (refilter_keeps _))
        | rewrite (proj1 (moveCursor_keeps _ _))
        | rewrite toggleAllFlags_keeps
        | rewrite (proj1 (updateValue_keeps _ _)) ];
      try match goal with
          | H : MultiSelect.ToggleSelect ?i ?o ?x = (_, _) |- _ =>
              let K := fresh in
              pose proof (proj1 (ToggleSelect_keeps i o x)) as K;
              rewrite H in K; simpl in K; rewrite K
          end;
      simpl; done
    | simpl in *; auto 10 ].
Qed.

(** [Update] on a key, as the key case applied to the field after the
    viewport and the filter have had the message. *)
Lemma Update_key_unfold (order : list Z) (env : Bindings) m k :
  ∃ m1 cmds,
    MUpdate order env m (KeyMsg k) = MultiSelect.updateKey order k cmds m1
    ∧ MultiSelect.validate m1 = MultiSelect.validate m
    ∧ MultiSelect.keymap m1 = MultiSelect.keymap m
    ∧ (MultiSelect.filtering m = false → cmds = [])
    ∧ cmds = (if MultiSelect.filtering m
              then (filterUpdate (MultiSelect.filter m) (KeyMsg k)).2 else []).
Proof.
  unfold MultiSelect.Update.
  assert (Hk : ∀ x, let x' := MultiSelect.updateViewportHeight titleViewHeight
                                 descriptionViewHeight x in
               MultiSelect.validate x' = MultiSelect.validate x
               ∧ MultiSelect.keymap x' = MultiSelect.keymap x
               ∧ MultiSelect.filtering x' = MultiSelect.filtering x
               ∧ MultiSelect.filter x' = MultiSelect.filter x).
  { intros x. unfold MultiSelect.updateViewportHeight.
    by destruct (MultiSelect.height x <=? 0). }
  destruct (Hk m) as (Hv & Hkm & Hf & Hfl).
  set (m1 := MultiSelect.updateViewportHeight _ _ m) in *.
  rewrite Hf, Hfl. destruct (MultiSelect.filtering m).
  - destruct (filterUpdate (MultiSelect.filter m) (KeyMsg k)) as [f c0]. simpl.
    eexists _, _. split; [done|]. simpl. done.
  - eexists _, _. split; [done|]. done.
Qed.


(** X7: while the bindings Next, Submit and Prev are disabled, as
    [setFilter(true)] leaves them, no key makes the multi-select hand back a
    navigation command. *)
Theorem MultiSelect_no_navigation_while_disabled (order : list Z) (env : Bindings)
    m k m' c :
  (∀ f msg x, x ∈ (filterUpdate f msg).2 → x ≠ CmdNextField ∧ x ≠ CmdPrevField) →
  key.Enabled (MultiSelect.Next (MultiSelect.keymap m)) = false →
  key.Enabled (MultiSelect.Submit (MultiSelect.keymap m)) = false →
  key.Enabled (MultiSelect.Prev (MultiSelect.keymap m)) = false →
  MUpdate order env m (KeyMsg k) = Some (m', c) →
  (CmdNextField ∉ c) ∧ (CmdPrevField ∉ c).
Proof.
  intros Hfu Hn Hs Hp Hup.
  destruct (Update_key_unfold order env m k) as (m1 & cmds & Heq & Hv & Hkm & _ & Hcmds).
  rewrite Heq in Hup. apply updateKey_outcome in Hup as [Hval Hout].
  rewrite Hkm in Hout.
  assert (Hno : (CmdNextField ∉ cmds) ∧ (CmdPrevField ∉ cmds)).
  { rewrite Hcmds. destruct (MultiSelect.filtering m).
    - split; intros H; destruct (Hfu _ _ _ H) as [? ?]; done.
    - split; apply not_elem_of_nil. }
  destruct Hout as [->|[->|[->|[(-> & Hm & _)|(-> & Hm & _)]]]].
  - done.
  - split; intros H; apply list_elem_of_singleton in H; done.
  - split; apply not_elem_of_nil.
  - rewrite Matches_disabled in Hm; [done|]. by constructor.
  - rewrite Matches_disabled in Hm; [done|]. by repeat constructor.
Qed.

(** [setFilter(true)] disables the three navigation bindings. *)
Lemma setFilter_true_disables m :
  let km := MultiSelect.keymap (MultiSelect.setFilter true m) in
  key.Enabled (MultiSelect.Next km) = false
  ∧ key.Enabled (MultiSelect.Submit km) = false
  ∧ key.Enabled (MultiSelect.Prev km) = false
  ∧ MultiSelect.filtering (MultiSelect.setFilter true m) = true.
Proof. done. Qed.




(** X9: the Toggle key reads the option at the cursor from the full option
    list, not from the filtered one.  With the cursor outside the full list
    the index expression panics; otherwise the entry keyed by the cursor is
    toggled with that option and the selection is committed, while the
    cursor and the filtered options stay as they are. *)
Theorem Toggle_key_reads_full_list (order : list Z) (env : Bindings) m k :
  let km := MultiSelect.keymap m in
  MultiSelect.filtering m = false →
  key.Matches k [MultiSelect.Filter km] = false →
  key.Matches k [MultiSelect.SetFilter km] = false →
  key.Matches k [MultiSelect.ClearFilter km] = false →
  key.Matches k [MultiSelect.Up km] = false →
  key.Matches k [MultiSelect.Down km] = false →
  key.Matches k [MultiSelect.GotoTop km] = false →
  key.Matches k [MultiSelect.GotoBottom km] = false →
  key.Matches k [MultiSelect.HalfPageUp km] = false →
  key.Matches k [MultiSelect.HalfPageDown km] = false →
  key.Matches k [MultiSelect.Toggle km] = true →
  match index (Eval.val (MultiSelect.options m)) (MultiSelect.cursor m) with
  | None => MUpdate order env m (KeyMsg k) = None
  | Some opt =>
      ∃ m',
        MUpdate order env m (KeyMsg k) = Some (m', [])
        ∧ MultiSelect.selected m'
          = MultiSelect.selected (MultiSelect.ToggleSelect (MultiSelect.cursor m) opt m).1
        ∧ MultiSelect.value m'
          = omap (fun i => Option.Value <$> MultiSelect.selected m' !! i) order
        ∧ MultiSelect.err m' = MultiSelect.validate m (MultiSelect.value m')
        ∧ MultiSelect.cursor m' = MultiSelect.cursor m
        ∧ MultiSelect.filteredOptions m' = MultiSelect.filteredOptions m
  end.
Proof.
  intros km Hf H1 H2 H3 H4 H5 H6 H7 H8 H9 H10. subst km.
  assert (Hgo : ∀ vp,
    let m1 := MultiSelect.set_viewport vp m in
    match index (Eval.val (MultiSelect.options m)) (MultiSelect.cursor m) with
    | None => MultiSelect.updateKey order k [] m1 = None
    | Some opt =>
        ∃ m',
          MultiSelect.updateKey order k [] m1 = Some (m', [])
          ∧ MultiSelect.selected m'
            = MultiSelect.selected
                (MultiSelect.ToggleSelect (MultiSelect.cursor m) opt m).1
          ∧ MultiSelect.value m'
            = omap (fun i => Option.Value <$> MultiSelect.selected m' !! i) order
          ∧ MultiSelect.err m' = MultiSelect.validate m (MultiSelect.value m')
          ∧ MultiSelect.cursor m' = MultiSelect.cursor m
          ∧ MultiSelect.filteredOptions m' = MultiSelect.filteredOptions m
    end).
  { intros vp m1. subst m1. unfold MultiSelect.updateKey. simpl.
    rewrite H1, H2, H3, H4, H5, H6, H7, H8, H9, H10, Hf. simpl.
    destruct (index (Eval.val (MultiSelect.options m)) (MultiSelect.cursor m))
      as [opt|]; [|done].
    unfold MultiSelect.ToggleSelect. simpl.
    destruct (MultiSelect.selected m !! MultiSelect.cursor m); simpl.
    - unfold MultiSelect.refilter. simpl. rewrite Hf. eexists. split; [done|]. done.
    - destruct (MultiSelect.limit m <=? Z.of_nat (size (MultiSelect.selected m))); simpl;
        unfold MultiSelect.refilter; simpl; rewrite Hf; eexists; (split; [done|]); done. }
  unfold MultiSelect.Update, MultiSelect.updateViewportHeight.
  destruct (MultiSelect.height m <=? 0); simpl; rewrite Hf; apply Hgo.
Qed.

(** X10: outside filter mode the ClearFilter key empties the filter text and
    makes the filtered options the full option list again, in its order; the
    selection, the bound value and the cursor are kept. *)
Theorem ClearFilter_key_restores_options (order : list Z) (env : Bindings) m k :
  let km := MultiSelect.keymap m in
  MultiSelect.filtering m = false →
  key.Matches k [MultiSelect.Filter km] = false →
  key.Matches k [MultiSelect.SetFilter km] = false →
  key.Matches k [MultiSelect.ClearFilter km] = true →
  ∃ m',
    MUpdate order env m (KeyMsg k) = Some (m', [])
    ∧ MultiSelect.filteredOptions m' = Eval.val (MultiSelect.options m)
    ∧ MultiSelect.options m' = MultiSelect.options m
    ∧ textinput.Value (MultiSelect.filter m') = ""
    ∧ MultiSelect.filtering m' = false
    ∧ MultiSelect.selected m' = MultiSelect.selected m
    ∧ MultiSelect.value m' = MultiSelect.value m
    ∧ MultiSelect.cursor m' = MultiSelect.cursor m.
Proof.
  intros km Hf H1 H2 H3. subst km.
  unfold MultiSelect.Update, MultiSelect.updateViewportHeight.
  destruct (MultiSelect.height m <=? 0); simpl; rewrite Hf; simpl;
    unfold MultiSelect.updateKey; simpl; rewrite H1, H2, H3; simpl;
    unfold MultiSelect.refilter; simpl;
    eexists; (split; [done|]); simpl; done.
Qed.

(** X11: on a non-empty filtered list, with a viewport height that is not
    negative, [moveCursor] keeps an in-range cursor within
    [0 .. len(filteredOptions)-1], whatever the offset and the content of the
    viewport; on an empty list [bottom] leaves the cursor at [-1]. *)
Theorem moveCursor_cursor_in_range (dir : Z) m :
  0 ≤ viewport.Height (MultiSelect.viewport m) →
  (0 ≤ MultiSelect.cursor m < len (MultiSelect.filteredOptions m) →
   0 ≤ MultiSelect.cursor (MultiSelect.moveCursor dir m)
     < len (MultiSelect.filteredOptions m))
  ∧ (len (MultiSelect.filteredOptions m) = 0 →
     MultiSelect.cursor (MultiSelect.moveCursor MultiSelect.bottom m) = -1).
Proof.
  intros Hh.
  destruct (half_bounds (viewport.Height (MultiSelect.viewport m)) Hh) as [Hq1 Hq2].
  split.
  - intros Hc. unfold MultiSelect.moveCursor.
    unfold MultiSelect.top, MultiSelect.up, MultiSelect.down, MultiSelect.bottom,
      MultiSelect.halfUp, MultiSelect.halfDown.
    split_ifs; bool_hyps; lia.
  - intros Hn. unfold MultiSelect.moveCursor. simpl. lia.
Qed.

(** X12: a title or description result addressed to another field, or
    computed for a bindings hash other than the recorded one, leaves the
    title (description) as it was; an options result addressed to another
    field leaves the options, the filtered options and the bound value as
    they were, even when its hash is the recorded one. *)
Theorem foreign_results_discarded (order : list Z) (env : Bindings) m
    (i hash : Z) (text : string) (opts : list (Option.t T)) :
  (i ≠ MultiSelect.id m ∨ hash ≠ Eval.bindingsHash (MultiSelect.title m) →
   ∃ m' cmds, MUpdate order env m (updateTitleMsg i text hash) = Some (m', cmds)
     ∧ MultiSelect.title m' = MultiSelect.title m)
  ∧ (i ≠ MultiSelect.id m ∨ hash ≠ Eval.bindingsHash (MultiSelect.description m) →
     ∃ m' cmds, MUpdate order env m (updateDescriptionMsg i text hash) = Some (m', cmds)
       ∧ MultiSelect.description m' = MultiSelect.description m)
  ∧ (i ≠ MultiSelect.id m →
     ∃ m' cmds, MUpdate order env m (updateOptionsMsg i opts hash) = Some (m', cmds)
       ∧ MultiSelect.options m' = MultiSelect.options m
       ∧ MultiSelect.filteredOptions m' = MultiSelect.filteredOptions m
       ∧ MultiSelect.value m' = MultiSelect.value m).
Proof.
  assert (Hcond : ∀ a b c d : Z, a ≠ b ∨ c ≠ d → (a =? b) && (c =? d) = false).
  { intros a b c d [H|H]; apply andb_false_iff; [left|right]; by apply Z.eqb_neq. }
  unfold MultiSelect.Update, MultiSelect.updateViewportHeight.
  repeat split.
  - intros H. apply Hcond in H.
    destruct (MultiSelect.height m <=? 0); simpl;
      (destruct (MultiSelect.filtering m); [destruct (filterUpdate _ _)|]);
      simpl; rewrite H; eexists _, _; split; done.
  - intros H. apply Hcond in H.
    destruct (MultiSelect.height m <=? 0); simpl;
      (destruct (MultiSelect.filtering m); [destruct (filterUpdate _ _)|]);
      simpl; rewrite H; eexists _, _; split; done.
  - intros H. apply Z.eqb_neq in H.
    destruct (MultiSelect.height m <=? 0); simpl;
      (destruct (MultiSelect.filtering m); [destruct (filterUpdate _ _)|]);
      simpl; rewrite H; simpl; eexists _, _; split; done.
Qed.

End KeyFacts.

(** ** Rendering and the accessible run of the multi-select *)

Section RenderFacts.
Context {T : Type}.
Implicit Types (m : MultiSelect.t T).



Lemma appendSelected_size (opts : list (Option.t T)) :
  ∀ (i : Z) (vs : list T) (sel : gmap Z (Option.t T)),
    size (MultiSelect.appendSelected i opts vs sel).2 = size sel.
Proof.
  induction opts as [|o opts IH]; intros i vs sel; simpl; [done|].
  destruct (sel !! i) as [o'|] eqn:Hi; rewrite IH; [|done].
  apply map_size_insert_Some. eauto.
Qed.

Lemma accessibleLoop_validated (answers : list MultiSelect.Answer) :
  ∀ m m',
    MultiSelect.accessibleLoop answers m = Some m' →
    MultiSelect.err m' = None
    ∧ MultiSelect.validate m' (MultiSelect.value m') = None
    ∧ MultiSelect.validate m' = MultiSelect.validate m
    ∧ MultiSelect.limit m' = MultiSelect.limit m
    ∧ MultiSelect.options m' = MultiSelect.options m
    ∧ MultiSelect.numSelected m'
      ≤ Z.max (MultiSelect.limit m) (MultiSelect.numSelected m).
Proof.
  induction answers as [|a answers IH]; intros m m' H; simpl in H; [done|].
  destruct ((MultiSelect.choice a <? 0)
            || (len (Eval.val (MultiSelect.options m)) <? MultiSelect.choice a)).
  { by apply IH. }
  destruct (MultiSelect.choice a =? 0).
  - match type of H with
    | match ?x with _ => _ end = _ => destruct x as [e|] eqn:Hv
    end.
    + apply IH in H as (? & ? & ? & ? & ? & ?). repeat split; try done.
    + simplify_eq. unfold MultiSelect.updateValue, MultiSelect.numSelected. simpl.
      rewrite Hv. repeat split; try done. lia.
  - destruct (index (Eval.val (MultiSelect.options m)) (MultiSelect.choice a - 1))
      as [o|]; [|done].
    pose proof (ToggleSelect_count m (MultiSelect.choice a - 1) o) as [Hl Hc].
    pose proof (ToggleSelect_keeps (MultiSelect.choice a - 1) o m) as (Hv & Ho & _).
    destruct (MultiSelect.ToggleSelect (MultiSelect.choice a - 1) o m) as [m1 e].
    simpl in *.
    apply IH in H as (? & ? & Hv' & Hl' & Ho' & Hc'). repeat split; try done.
    + congruence.
    + congruence.
    + congruence.
    + lia.
Qed.

(** X14: when the accessible run of a multi-select returns, its loop has
    ended on an answer [0] whose commit the validator accepted: no error is
    left on the field.  Every toggle of the run went through [ToggleSelect],
    so the number of selected options is within the limit (or within the
    count the run started with, if that was larger), and the options are
    untouched. *)
Theorem runAccessible_returns_validated (answers : list MultiSelect.Answer) m m' :
  MultiSelect.runAccessible answers m = Some m' →
  MultiSelect.err m' = None
  ∧ (∃ mid, MultiSelect.accessibleLoop answers m = Some mid
       ∧ MultiSelect.validate m (MultiSelect.value mid) = None)
  ∧ MultiSelect.numSelected m' ≤ Z.max (MultiSelect.limit m) (MultiSelect.numSelected m)
  ∧ MultiSelect.limit m' = MultiSelect.limit m
  ∧ MultiSelect.options m' = MultiSelect.options m.
Proof.
  unfold MultiSelect.runAccessible. intros H.
  destruct (MultiSelect.accessibleLoop answers m) as [mid|] eqn:Hloop; [|done].
  apply accessibleLoop_validated in Hloop as (He & Hv & Hval & Hl & Ho & Hc).
  pose proof (appendSelected_size (Eval.val (MultiSelect.options mid)) 0
                (MultiSelect.value mid) (MultiSelect.selected mid)) as Hsz.
  destruct (MultiSelect.appendSelected 0 _ _ _) as [vs sel]. simplify_eq. simpl in *.
  split; [done|]. split; [exists mid; split; [done|congruence]|].
  split; [|done]. unfold MultiSelect.numSelected in *. simpl. lia.
Qed.

End RenderFacts.

(** ** The select and the text field *)

Section SelectFacts.
Context {T : Type}.
Implicit Types (s : Select.t T) (msg : Msg T).


(** X16: a select hands back the Advance only together with a commit: the
    bound value is then the value of the highlighted option, the validator
    accepts it and no error is left.  On every other outcome (the cursor
    keys, a refused value, the Prev key, which is not validated, any other
    message) the bound value is what it was. *)
Theorem Select_commits_validated s msg s' c :
  Select.Update s msg = Some (s', c) →
  Select.validate s' = Select.validate s
  ∧ (CmdNextField ∈ c →
     ∃ o, index (Select.options s) (Select.selected s) = Some o
       ∧ Select.value s' = Option.Value o
       ∧ Select.validate s (Select.value s') = None
       ∧ Select.err s' = None)
  ∧ (CmdNextField ∉ c → Select.value s' = Select.value s).
Proof.
  intros H. destruct msg; simpl in H; simplify_eq;
    try (split; [done|]; split; [intros Hin; by apply not_elem_of_nil in Hin|done]).
  repeat case_match; simplify_eq; simpl in *; (split; [done|]).
  - split; [intros Hin; by apply not_elem_of_nil in Hin|done].
  - split; [intros Hin; by apply not_elem_of_nil in Hin|done].
  - split; [|done]. intros Hin. apply list_elem_of_singleton in Hin. done.
  - split; [intros Hin; by apply not_elem_of_nil in Hin|done].
  - split.
    + intros _. eexists. split; [done|]. done.
    + intros Hn. exfalso. apply Hn. by apply list_elem_of_singleton.
  - split; [intros Hin; by apply not_elem_of_nil in Hin|done].
Qed.

Context (textareaUpdate : textarea.Model -> Msg T -> textarea.Model * list Cmd).

(** X17: [Update] of a text field never writes the bound value and never
    calls the validator: a key clears the error, and the Next key hands back
    the Advance whatever the text is.  The text is committed and validated by
    [Blur], on the buffer as the text area left it. *)
Theorem Text_commits_on_Blur (x : Text.t) msg :
  let r := Text.Update textareaUpdate x msg in
  Text.value r.1 = Text.value x
  ∧ Text.validate r.1 = Text.validate x
  ∧ (∀ k, msg = KeyMsg k →
       Text.err r.1 = None
       ∧ (key.Matches k [Text.Next (Text.keymap x)] = true → CmdNextField ∈ r.2))
  ∧ Text.value (Text.Blur r.1).1 = textarea.Value (textareaUpdate (Text.textarea x) msg).1
  ∧ Text.err (Text.Blur r.1).1
    = Text.validate x (textarea.Value (textareaUpdate (Text.textarea x) msg).1).
Proof.
  intros r. subst r. unfold Text.Update.
  destruct (textareaUpdate (Text.textarea x) msg) as [ta cmds]. simpl.
  destruct msg; simpl;
    try (split; [done|]; split; [done|]; split; [intros k' Hk'; discriminate|]; by split).
  destruct (key.Matches k [Text.Next (Text.keymap x)]) eqn:E1; simpl.
  - split; [done|]. split; [done|]. split; [|by split].
    intros k' Hk'. simplify_eq. split; [done|]. rewrite E1. intros _.
    apply elem_of_app. right. by apply list_elem_of_singleton.
  - destruct (key.Matches k [Text.Prev (Text.keymap x)]); simpl;
      (split; [done|]; split; [done|]; split; [|by split]);
      intros k' Hk'; simplify_eq; (split; [done|]); rewrite E1; done.
Qed.

End SelectFacts.

(** ** The cursor of the group *)

Section GroupCursorFacts.
Context {T : Type}.
Context (titleViewHeight descriptionViewHeight : MultiSelect.t T -> Z).
Context (spinnerElapsed : MultiSelect.t T -> bool).
Context (filterUpdate : textinput.Model -> Msg T -> textinput.Model * list Cmd).
Context (textareaUpdate : textarea.Model -> Msg T -> textarea.Model * list Cmd).
Context (viewHeight : Group.Field T -> Z).
Implicit Types (g : Group.t T) (f : Group.Field T) (fs : list (Group.Field T)).

Local Abbreviation GUpdate :=
  (Group.Update titleViewHeight descriptionViewHeight spinnerElapsed filterUpdate
     textareaUpdate viewHeight).
Local Abbreviation FUpdate :=
  (Group.fieldUpdate titleViewHeight descriptionViewHeight filterUpdate textareaUpdate).

Local Arguments Group.setCurrent : simpl never.
Local Arguments Group.viewBefore : simpl never.

Lemma viewBefore_keeps (k : Z) g :
  len (Group.fields (Group.viewBefore spinnerElapsed k g)) = len (Group.fields g)
  ∧ Group.paginator (Group.viewBefore spinnerElapsed k g) = Group.paginator g
  ∧ Group.viewport (Group.viewBefore spinnerElapsed k g) = Group.viewport g.
Proof.
  unfold Group.viewBefore, len. simpl. split; [|done].
  rewrite length_app, length_fmap, <- length_app, take_drop. done.
Qed.

(** [Update], opened up to the field's own [Update] and the store of its
    result. *)
Lemma Group_Update_unfold (o : Group.Orders) (env : Bindings) g (msg : Msg T) g' c :
  GUpdate o env g msg = Some (g', c) →
  ∃ f f' cmd,
    index (Group.fields g) (Group.Page (Group.paginator g)) = Some f
    ∧ FUpdate (Group.updateOrder o) env f msg = Some (f', cmd)
    ∧ 0 ≤ Group.Page (Group.paginator g) < len (Group.fields g).
Proof.
  unfold Group.Update. intros H.
  destruct (index (Group.fields g) (Group.Page (Group.paginator g))) as [f|] eqn:Hf;
    [|done].
  simpl in H. destruct (FUpdate (Group.updateOrder o) env f msg) as [[f' cmd]|] eqn:Hu;
    [|done].
  exists f, f', cmd. split; [done|]. split; [done|]. by apply index_bounds in Hf.
Qed.

(** X18: a group made by [NewGroup] from at least one field has its cursor
    on a field and as many pages as fields, and every [Update] that returns
    keeps the cursor on a field, the number of fields and the number of
    pages. *)
Theorem Group_cursor_stays_on_a_field :
  (∀ fs, fs ≠ [] →
     let g := Group.NewGroup spinnerElapsed viewHeight fs in
     0 ≤ Group.Page (Group.paginator g) < len (Group.fields g)
     ∧ Group.TotalPages (Group.paginator g) = len (Group.fields g)
     ∧ len (Group.fields g) = len fs)
  ∧ (∀ (o : Group.Orders) (env : Bindings) g (msg : Msg T) g' c,
       GUpdate o env g msg = Some (g', c) →
       0 ≤ Group.Page (Group.paginator g') < len (Group.fields g')
       ∧ len (Group.fields g') = len (Group.fields g)
       ∧ Group.TotalPages (Group.paginator g') = Group.TotalPages (Group.paginator g)).
Proof.
  split.
  - intros fs Hfs g. subst g. unfold Group.NewGroup, Group.newPaginator, len. simpl.
    rewrite length_fmap. destruct fs as [|f fs]; [done|]. simpl.
    destruct (Z.of_nat (S (length fs)) <? 1) eqn:E; bool_hyps; lia.
  - intros o env g msg g' c H.
    destruct (Group_Update_unfold _ _ _ _ _ _ H) as (f & f' & cmd & Hf & Hu & Hp).
    unfold Group.Update in H. rewrite Hf in H. simpl in H. rewrite Hu in H. simpl in H.
    set (g1 := Group.storeField _ f' g) in *.
    assert (Hl1 : len (Group.fields g1) = len (Group.fields g)) by apply storeField_len.
    assert (Hs : ∀ cur, ∃ g2 c2,
               Group.setCurrent o cur g1 = Some (g2, c2)
               ∧ 0 ≤ Group.Page (Group.paginator g2) < len (Group.fields g)
               ∧ Group.TotalPages (Group.paginator g2)
                 = Group.TotalPages (Group.paginator g)
               ∧ len (Group.fields g2) = len (Group.fields g)).
    { intros cur. destruct (setCurrent_total o cur g1) as (g2 & c2 & Hs & Hpg & Ht & Hl & _).
      { by rewrite Hl1. }
      exists g2, c2. split; [done|]. rewrite Hpg, Hl1, clamp_spec by lia.
      split; [lia|]. split; [done|]. by rewrite Hl. }
    destruct msg; simplify_eq; try (by rewrite Hl1).
    + destruct (Hs (Group.Page (Group.paginator g) + 1)) as (g2 & c2 & Hs2 & Hp2 & Ht2 & Hl2).
      rewrite Hs2 in H. simpl in H.
      destruct (Group.TotalPages (Group.paginator g2) - 1 <=? Group.Page (Group.paginator g));
        simplify_eq.
      * by rewrite Hl2.
      * simpl. pose proof (proj1 (viewBefore_keeps (Group.Page (Group.paginator g) + 1) g2))
          as Hl3.
        unfold Group.viewBefore in Hl3. simpl in Hl3. rewrite Hl3, Hl2. done.
    + destruct (Hs (Group.Page (Group.paginator g) - 1)) as (g2 & c2 & Hs2 & Hp2 & Ht2 & Hl2).
      rewrite Hs2 in H. simpl in H.
      destruct (Group.Page (Group.paginator g) =? 0); simplify_eq.
      * by rewrite Hl2.
      * simpl. pose proof (proj1 (viewBefore_keeps (Group.Page (Group.paginator g) - 1) g2))
          as Hl3.
        unfold Group.viewBefore in Hl3. simpl in Hl3. rewrite Hl3, Hl2. done.
Qed.

(** X19: at the boundaries of a group the navigation leaves the group
    alone and passes on.  A Retreat on the first field keeps the cursor on
    it, does not scroll and hands back the previous-group command; an Advance
    on the last field keeps the cursor on it, does not scroll and hands back
    the next-group command. *)
Theorem Group_boundary_passes_on (o : Group.Orders) (env : Bindings) g :
  0 ≤ Group.Page (Group.paginator g) < len (Group.fields g) →
  Group.TotalPages (Group.paginator g) = len (Group.fields g) →
  (Group.Page (Group.paginator g) = 0 →
   ∃ g' cmds,
     GUpdate o env g prevFieldMsg = Some (g', cmds)
     ∧ Group.Page (Group.paginator g') = 0
     ∧ Group.viewport g' = Group.viewport g
     ∧ CmdPrevGroup ∈ cmds)
  ∧ (Group.Page (Group.paginator g) = len (Group.fields g) - 1 →
     ∃ g' cmds,
       GUpdate o env g nextFieldMsg = Some (g', cmds)
       ∧ Group.Page (Group.paginator g') = Group.Page (Group.paginator g)
       ∧ Group.viewport g' = Group.viewport g
       ∧ CmdNextGroup ∈ cmds).
Proof.
  intros Hp Htot.
  destruct (index_in_range _ _ Hp) as [f Hf].
  assert (Hgo : ∀ msg step, msg = nextFieldMsg ∨ msg = prevFieldMsg →
            ∃ f' cmd g2 c2,
              FUpdate (Group.updateOrder o) env f msg = Some (f', cmd)
              ∧ Group.setCurrent o (Group.Page (Group.paginator g) + step)
                  (Group.storeField (Group.Page (Group.paginator g)) f' g)
                = Some (g2, c2)
              ∧ Group.Page (Group.paginator g2)
                = clamp (Group.Page (Group.paginator g) + step) 0
                    (len (Group.fields g) - 1)
              ∧ Group.TotalPages (Group.paginator g2)
                = Group.TotalPages (Group.paginator g)
              ∧ Group.viewport g2 = Group.viewport g).
  { intros msg step Hmsg.
    destruct (fieldUpdate_navigation titleViewHeight descriptionViewHeight filterUpdate
                textareaUpdate (Group.updateOrder o) env f msg Hmsg) as (f' & cmd & Hu).
    set (g1 := Group.storeField (Group.Page (Group.paginator g)) f' g).
    assert (Hl1 : len (Group.fields g1) = len (Group.fields g)) by apply storeField_len.
    destruct (setCurrent_total o (Group.Page (Group.paginator g) + step) g1)
      as (g2 & c2 & Hs & Hpg & Ht & _ & Hvp).
    { by rewrite Hl1. }
    exists f', cmd, g2, c2. rewrite Hpg, Hl1. done. }
  split.
  - intros H0. destruct (Hgo prevFieldMsg (-1)) as (f' & cmd & g2 & c2 & Hu & Hs & Hpg & Ht & Hvp);
      [by right|].
    unfold Group.Update. rewrite Hf. simpl. rewrite Hu. simpl.
    change (Group.Page (Group.paginator (Group.storeField _ f' g)))
      with (Group.Page (Group.paginator g)).
    replace (Group.Page (Group.paginator g) - 1) with (Group.Page (Group.paginator g) + -1)
      by lia.
    rewrite Hs. simpl. rewrite H0. simpl.
    eexists _, _. split; [done|]. rewrite Hpg, clamp_spec by lia.
    split; [lia|]. split; [done|].
    apply elem_of_app. right. by apply list_elem_of_singleton.
  - intros Hlast.
    destruct (Hgo nextFieldMsg 1) as (f' & cmd & g2 & c2 & Hu & Hs & Hpg & Ht & Hvp);
      [by left|].
    unfold Group.Update. rewrite Hf. simpl. rewrite Hu. simpl.
    change (Group.Page (Group.paginator (Group.storeField _ f' g)))
      with (Group.Page (Group.paginator g)).
    rewrite Hs. simpl. rewrite Ht, Htot.
    destruct (len (Group.fields g) - 1 <=? Group.Page (Group.paginator g)) eqn:E;
      bool_hyps; [|lia].
    eexists _, _. split; [done|]. rewrite Hpg, clamp_spec by lia.
    split; [lia|]. split; [done|].
    apply elem_of_app. right. by apply list_elem_of_singleton.
Qed.

(** X20: a message that is neither the Advance nor the Retreat reaches the
    field under the cursor and nothing else: the group hands back that
    field's commands, stores that field's new state, and keeps its cursor,
    its viewport and every other field. *)
Theorem Group_Update_reaches_active_field (o : Group.Orders) (env : Bindings) g
    (msg : Msg T) g' c :
  msg ≠ nextFieldMsg → msg ≠ prevFieldMsg →
  GUpdate o env g msg = Some (g', c) →
  Group.paginator g' = Group.paginator g
  ∧ Group.viewport g' = Group.viewport g
  ∧ (∀ j : nat, j ≠ Z.to_nat (Group.Page (Group.paginator g)) →
       Group.fields g' !! j = Group.fields g !! j)
  ∧ ∃ f f',
      index (Group.fields g) (Group.Page (Group.paginator g)) = Some f
      ∧ FUpdate (Group.updateOrder o) env f msg = Some (f', c)
      ∧ index (Group.fields g') (Group.Page (Group.paginator g)) = Some f'.
Proof.
  intros Hn Hp H.
  destruct (Group_Update_unfold _ _ _ _ _ _ H) as (f & f' & cmd & Hf & Hu & Hr).
  unfold Group.Update in H. rewrite Hf in H. simpl in H. rewrite Hu in H. simpl in H.
  destruct msg; simplify_eq; simpl;
    (split; [done|]; split; [done|]; split;
     [intros j Hj; by apply list_lookup_insert_ne
     |exists f, f'; split; [done|]; split; [done|];
      apply (storeField_read _ _ _ _ Hf)]).
Qed.

End GroupCursorFacts.

(** ** Executable checks for the further properties *)

(** The sample filter schedules nothing. *)
Lemma Demo_typing_quiet (f : textinput.Model) (msg : Msg string) (x : Cmd) :
  x ∈ (Demo.typing f msg).2 → x ≠ CmdNextField ∧ x ≠ CmdPrevField.
Proof.
  assert (H : (Demo.typing f msg).2 = []).
  { unfold Demo.typing. repeat case_match; done. }
  rewrite H. intros Hin. by apply not_elem_of_nil in Hin.
Qed.

(** X4, on a fresh field: option A selected and toggled again. *)
Lemma ToggleSelect_select_deselect_witness :
  MultiSelect.ToggleSelect 0 Sample.optB
    (MultiSelect.ToggleSelect 0 Sample.optA (MultiSelect.NewMultiSelect (T:=string) 1)).1
  = (MultiSelect.NewMultiSelect 1, None).
Proof.
  apply (ToggleSelect_select_deselect (MultiSelect.NewMultiSelect (T:=string) 1) 0
           Sample.optA Sample.optB); vm_compute; reflexivity.
Defined.

(** X5, on two selected options visited in index order. *)
Lemma updateValue_binds_selected_witness :
  let m' := MultiSelect.updateValue [0; 1] Sample.twoSelected in
  MultiSelect.value m'
    ≡ₚ (fun kv => Option.Value kv.2) <$> map_to_list (MultiSelect.selected Sample.twoSelected)
  ∧ len (MultiSelect.value m') = MultiSelect.numSelected Sample.twoSelected
  ∧ MultiSelect.err m' = MultiSelect.validate Sample.twoSelected (MultiSelect.value m')
  ∧ MultiSelect.selected m' = MultiSelect.selected Sample.twoSelected.
Proof.
  apply (updateValue_binds_selected [0; 1] Sample.twoSelected).
  unfold MultiSelect.rangeOrder. vm_compute. apply perm_swap.
Defined.


(** X7, on the Enter key while the filter is being typed. *)
Lemma MultiSelect_no_navigation_while_disabled_witness :
  (CmdNextField ∉ Demo.cmdsOf
      (MultiSelect.Update Sample.oneLine Sample.oneLine Demo.typing []
         Sample.noBindings Demo.filteringAn (KeyMsg "enter")))
  ∧ (CmdPrevField ∉ Demo.cmdsOf
       (MultiSelect.Update Sample.oneLine Sample.oneLine Demo.typing []
          Sample.noBindings Demo.filteringAn (KeyMsg "enter"))).
Proof.
  apply (MultiSelect_no_navigation_while_disabled Sample.oneLine Sample.oneLine
           Demo.typing [] Sample.noBindings Demo.filteringAn "enter"
           (Sample.stateOf Demo.filteringAn
              (MultiSelect.Update Sample.oneLine Sample.oneLine Demo.typing []
                 Sample.noBindings Demo.filteringAn (KeyMsg "enter")))).
  - exact Demo_typing_quiet.
  - vm_compute. reflexivity.
  - vm_compute. reflexivity.
  - vm_compute. reflexivity.
  - vm_compute. reflexivity.
Defined.


(** X9, on the list narrowed to Banana: the Toggle key selects Apple, the
    option at the cursor's index in the full list. *)
Lemma Toggle_key_reads_full_list_witness :
  MultiSelect.filteredOptions Demo.narrowed = [Demo.banana]
  ∧ match index (Eval.val (MultiSelect.options Demo.narrowed))
            (MultiSelect.cursor Demo.narrowed) with
    | None =>
        MultiSelect.Update Sample.oneLine Sample.oneLine Demo.typing [0]
          Sample.noBindings Demo.narrowed (KeyMsg " ") = None
    | Some opt =>
        ∃ m',
          MultiSelect.Update Sample.oneLine Sample.oneLine Demo.typing [0]
            Sample.noBindings Demo.narrowed (KeyMsg " ") = Some (m', [])
          ∧ MultiSelect.selected m'
            = MultiSelect.selected
                (MultiSelect.ToggleSelect (MultiSelect.cursor Demo.narrowed) opt
                   Demo.narrowed).1
          ∧ MultiSelect.value m'
            = omap (fun i => Option.Value <$> MultiSelect.selected m' !! i) [0]
          ∧ MultiSelect.err m'
            = MultiSelect.validate Demo.narrowed (MultiSelect.value m')
          ∧ MultiSelect.cursor m' = MultiSelect.cursor Demo.narrowed
          ∧ MultiSelect.filteredOptions m' = MultiSelect.filteredOptions Demo.narrowed
    end.
Proof.
  split; [vm_compute; reflexivity|].
  apply (Toggle_key_reads_full_list Sample.oneLine Sample.oneLine Demo.typing [0]
           Sample.noBindings Demo.narrowed " "); vm_compute; reflexivity.
Defined.

(** X10, on the list narrowed to Banana: the ClearFilter key. *)
Lemma ClearFilter_key_restores_options_witness :
  ∃ m',
    MultiSelect.Update Sample.oneLine Sample.oneLine Demo.typing [] Sample.noBindings
      Demo.narrowed (KeyMsg "esc") = Some (m', [])
    ∧ MultiSelect.filteredOptions m' = Eval.val (MultiSelect.options Demo.narrowed)
    ∧ MultiSelect.options m' = MultiSelect.options Demo.narrowed
    ∧ textinput.Value (MultiSelect.filter m') = ""
    ∧ MultiSelect.filtering m' = false
    ∧ MultiSelect.selected m' = MultiSelect.selected Demo.narrowed
    ∧ MultiSelect.value m' = MultiSelect.value Demo.narrowed
    ∧ MultiSelect.cursor m' = MultiSelect.cursor Demo.narrowed.
Proof.
  apply (ClearFilter_key_restores_options Sample.oneLine Sample.oneLine Demo.typing []
           Sample.noBindings Demo.narrowed "esc"); vm_compute; reflexivity.
Defined.

(** X11, on ten options, one line down. *)
Lemma moveCursor_cursor_in_range_witness :
  (0 ≤ MultiSelect.cursor Sample.scrolling < len (MultiSelect.filteredOptions Sample.scrolling) →
   0 ≤ MultiSelect.cursor (MultiSelect.moveCursor MultiSelect.down Sample.scrolling)
     < len (MultiSelect.filteredOptions Sample.scrolling))
  ∧ (len (MultiSelect.filteredOptions Sample.scrolling) = 0 →
     MultiSelect.cursor (MultiSelect.moveCursor MultiSelect.bottom Sample.scrolling) = -1).
Proof.
  apply (moveCursor_cursor_in_range MultiSelect.down Sample.scrolling).
  vm_compute. discriminate.
Defined.


(** X14, on the answers 1, 2, 2, 0. *)
Lemma runAccessible_returns_validated_witness :
  let m' := default Sample.plain (MultiSelect.runAccessible Demo.answers Sample.plain) in
  MultiSelect.err m' = None
  ∧ (∃ mid, MultiSelect.accessibleLoop Demo.answers Sample.plain = Some mid
       ∧ MultiSelect.validate Sample.plain (MultiSelect.value mid) = None)
  ∧ MultiSelect.numSelected m'
    ≤ Z.max (MultiSelect.limit Sample.plain) (MultiSelect.numSelected Sample.plain)
  ∧ MultiSelect.limit m' = MultiSelect.limit Sample.plain
  ∧ MultiSelect.options m' = MultiSelect.options Sample.plain.
Proof.
  apply (runAccessible_returns_validated Demo.answers Sample.plain).
  vm_compute. reflexivity.
Defined.


(** X16, on the Next key over an accepted option. *)
Lemma Select_commits_validated_witness :
  let s' := Select.set_value "a" Sample.requiredSelect in
  Select.validate s' = Select.validate Sample.requiredSelect
  ∧ (CmdNextField ∈ [CmdNextField] →
     ∃ o, index (Select.options Sample.requiredSelect)
            (Select.selected Sample.requiredSelect) = Some o
       ∧ Select.value s' = Option.Value o
       ∧ Select.validate Sample.requiredSelect (Select.value s') = None
       ∧ Select.err s' = None)
  ∧ (CmdNextField ∉ [CmdNextField] →
     Select.value s' = Select.value Sample.requiredSelect).
Proof.
  apply (Select_commits_validated Sample.requiredSelect (KeyMsg "enter")).
  vm_compute. reflexivity.
Defined.

(** X19, on a group of two selects with the cursor on the first. *)
Lemma Group_boundary_passes_on_witness :
  (Group.Page (Group.paginator Demo.twoSelects) = 0 →
   ∃ g' cmds,
     Group.Update Sample.oneLine Sample.oneLine Sample.neverElapsed Sample.idleFilter
       Sample.idleTextarea Sample.rows Sample.noOrders Sample.noBindings
       Demo.twoSelects prevFieldMsg = Some (g', cmds)
     ∧ Group.Page (Group.paginator g') = 0
     ∧ Group.viewport g' = Group.viewport Demo.twoSelects
     ∧ CmdPrevGroup ∈ cmds)
  ∧ (Group.Page (Group.paginator Demo.twoSelects) = len (Group.fields Demo.twoSelects) - 1 →
     ∃ g' cmds,
       Group.Update Sample.oneLine Sample.oneLine Sample.neverElapsed Sample.idleFilter
         Sample.idleTextarea Sample.rows Sample.noOrders Sample.noBindings
         Demo.twoSelects nextFieldMsg = Some (g', cmds)
       ∧ Group.Page (Group.paginator g') = Group.Page (Group.paginator Demo.twoSelects)
       ∧ Group.viewport g' = Group.viewport Demo.twoSelects
       ∧ CmdNextGroup ∈ cmds).
Proof.
  apply (Group_boundary_passes_on Sample.oneLine Sample.oneLine Sample.neverElapsed
           Sample.idleFilter Sample.idleTextarea Sample.rows Sample.noOrders
           Sample.noBindings Demo.twoSelects).
  - vm_compute. split; [discriminate|reflexivity].
  - vm_compute. reflexivity.
Defined.

(** X20, on the Down key sent to a group of two selects. *)
Lemma Group_Update_reaches_active_field_witness :
  let g' := Sample.groupUpdate Demo.twoSelects (KeyMsg "down") in
  Group.paginator g' = Group.paginator Demo.twoSelects
  ∧ Group.viewport g' = Group.viewport Demo.twoSelects
  ∧ (∀ j : nat, j ≠ Z.to_nat (Group.Page (Group.paginator Demo.twoSelects)) →
       Group.fields g' !! j = Group.fields Demo.twoSelects !! j)
  ∧ ∃ f f',
      index (Group.fields Demo.twoSelects) (Group.Page (Group.paginator Demo.twoSelects))
      = Some f
      ∧ Group.fieldUpdate Sample.oneLine Sample.oneLine Sample.idleFilter
          Sample.idleTextarea (Group.updateOrder Sample.noOrders) Sample.noBindings f
          (KeyMsg "down") = Some (f', [])
      ∧ index (Group.fields g') (Group.Page (Group.paginator Demo.twoSelects)) = Some f'.
Proof.
  apply (Group_Update_reaches_active_field Sample.oneLine Sample.oneLine
           Sample.neverElapsed Sample.idleFilter Sample.idleTextarea Sample.rows
           Sample.noOrders Sample.noBindings Demo.twoSelects (KeyMsg "down")).
  - discriminate.
  - discriminate.
  - vm_compute. reflexivity.
Defined.

(** ** A full Advance from a select *)

Section AdvanceRound.
Context {T : Type}.
Context (titleViewHeight descriptionViewHeight : MultiSelect.t T -> Z).
Context (spinnerElapsed : MultiSelect.t T -> bool).
Context (filterUpdate : textinput.Model -> Msg T -> textinput.Model * list Cmd).
Context (textareaUpdate : textarea.Model -> Msg T -> textarea.Model * list Cmd).
Context (viewHeight : Group.Field T -> Z).
Implicit Types (g : Group.t T) (s : Select.t T).

Local Abbreviation GUpdate :=
  (Group.Update titleViewHeight descriptionViewHeight spinnerElapsed filterUpdate
     textareaUpdate viewHeight).

(** X21: the Next key on a select whose highlighted option the validator
    accepts, followed by the Advance message it schedules, moves the cursor
    of the group to the next field and leaves the select behind blurred, with
    the value of the highlighted option bound and no error. *)
Theorem Select_Advance_round (o : Group.Orders) (env : Bindings) g s (k : string)
    (opt : Option.t T) :
  index (Group.fields g) (Group.Page (Group.paginator g)) = Some (Group.FSelect s) →
  Group.Page (Group.paginator g) + 1 < len (Group.fields g) →
  Group.TotalPages (Group.paginator g) = len (Group.fields g) →
  key.Matches k [Select.Up (Select.keymap s)] = false →
  key.Matches k [Select.Down (Select.keymap s)] = false →
  key.Matches k [Select.Prev (Select.keymap s)] = false →
  key.Matches k [Select.Next (Select.keymap s)] = true →
  index (Select.options s) (Select.selected s) = Some opt →
  Select.validate s (Option.Value opt) = None →
  ∃ g1 g2 cmds s',
    GUpdate o env g (KeyMsg k) = Some (g1, [CmdNextField])
    ∧ GUpdate o env g1 nextFieldMsg = Some (g2, cmds)
    ∧ Group.Page (Group.paginator g2) = Group.Page (Group.paginator g) + 1
    ∧ index (Group.fields g2) (Group.Page (Group.paginator g)) = Some (Group.FSelect s')
    ∧ Select.value s' = Option.Value opt
    ∧ Select.err s' = None
    ∧ Select.focused s' = false
    ∧ Select.selected s' = Select.selected s.
Proof.
  intros Hf Hnext Htot Hup Hdown Hprev Hn Hopt Hval.
  pose proof (index_bounds _ _ _ Hf) as Hp.
  set (p := Group.Page (Group.paginator g)) in *.
  set (s1 := Select.set_value (Option.Value opt) (Select.set_err None s)).
  set (g1 := Group.storeField p (Group.FSelect s1) g).
  assert (H1 : GUpdate o env g (KeyMsg k) = Some (g1, [CmdNextField])).
  { unfold Group.Update. fold p. rewrite Hf. simpl.
    unfold Select.Update. simpl. rewrite Hup, Hdown, Hprev, Hn, Hopt. simpl.
    rewrite Hval. simpl. done. }
  assert (Hf1 : index (Group.fields g1) p = Some (Group.FSelect s1))
    by apply (storeField_read _ _ _ _ Hf).
  assert (Hl1 : len (Group.fields g1) = len (Group.fields g)) by apply storeField_len.
  set (s2 := (Select.Blur s1).1).
  set (g1b := Group.storeField p (Group.FSelect s2) (Group.storeField p (Group.FSelect s1) g1)).
  assert (Hlb : len (Group.fields g1b) = len (Group.fields g)).
  { unfold g1b. rewrite !storeField_len. done. }
  destruct (index_in_range (Group.fields g1b) (p + 1)) as [fn Hfn]; [lia|].
  exists g1.
  assert (H2 : ∃ g2 cmds,
    GUpdate o env g1 nextFieldMsg = Some (g2, cmds)
    ∧ Group.Page (Group.paginator g2) = p + 1
    ∧ Group.fields g2 !! Z.to_nat p = Some (Group.FSelect s2)).
  { unfold Group.Update.
    change (Group.Page (Group.paginator g1)) with p. rewrite Hf1. simpl.
    unfold Group.setCurrent. simpl. fold p.
    assert (Hr : index (<[Z.to_nat p := Group.FSelect s1]>
                          (<[Z.to_nat p := Group.FSelect s1]> (Group.fields g))) p
                 = Some (Group.FSelect s1)).
    { apply (storeField_read p (Group.FSelect s1) g1 _ Hf1). }
    rewrite Hr. simpl.
    assert (Hc : clamp (p + 1) 0
                   (len (<[Z.to_nat p := Group.FSelect (Select.set_err
                            (Select.validate s (Option.Value opt))
                            (Select.set_focused false s1))]>
                         (<[Z.to_nat p := Group.FSelect s1]>
                            (<[Z.to_nat p := Group.FSelect s1]> (Group.fields g)))) - 1)
                 = p + 1).
    { unfold len in *. rewrite !length_insert. rewrite clamp_spec by lia. lia. }
    rewrite Hc. unfold g1b, g1, s2 in Hfn. simpl in Hfn. rewrite Hfn. simpl.
    destruct (Group.fieldFocus (Group.focusOrder o) fn) as [f3 c3]. simpl.
    rewrite Htot.
    destruct (len (Group.fields g) - 1 <=? p) eqn:E; bool_hyps; [lia|].
    eexists _, _. split; [done|]. simpl. split; [done|].
    apply lookup_app_l_Some. rewrite list_lookup_fmap.
    rewrite lookup_take_lt by lia.
    rewrite list_lookup_insert_ne by lia.
    rewrite list_lookup_insert_eq.
    2:{ rewrite !length_insert. unfold len in Hp. lia. }
    simpl. done. }
  destruct H2 as (g2 & cmds & H2 & Hpage & Hlook).
  exists g2, cmds, s2. split; [done|]. split; [done|]. split; [done|].
  split; [apply index_Some; split; [lia|done]|].
  subst s2 s1. simpl. rewrite Hval. done.
Qed.

End AdvanceRound.

(** X21, on the first of two selects. *)
Lemma Select_Advance_round_witness :
  ∃ g1 g2 cmds s',
    Group.Update Sample.oneLine Sample.oneLine Sample.neverElapsed Sample.idleFilter
      Sample.idleTextarea Sample.rows Sample.noOrders Sample.noBindings
      Demo.twoSelects (KeyMsg "enter") = Some (g1, [CmdNextField])
    ∧ Group.Update Sample.oneLine Sample.oneLine Sample.neverElapsed Sample.idleFilter
        Sample.idleTextarea Sample.rows Sample.noOrders Sample.noBindings
        g1 nextFieldMsg = Some (g2, cmds)
    ∧ Group.Page (Group.paginator g2) = Group.Page (Group.paginator Demo.twoSelects) + 1
    ∧ index (Group.fields g2) (Group.Page (Group.paginator Demo.twoSelects))
      = Some (Group.FSelect s')
    ∧ Select.value s' = Option.Value Sample.optA
    ∧ Select.err s' = None
    ∧ Select.focused s' = false
    ∧ Select.selected s' = Select.selected Sample.requiredSelect.
Proof.
  apply (Select_Advance_round Sample.oneLine Sample.oneLine Sample.neverElapsed
           Sample.idleFilter Sample.idleTextarea Sample.rows Sample.noOrders
           Sample.noBindings Demo.twoSelects Sample.requiredSelect "enter" Sample.optA);
    vm_compute; reflexivity.
Defined.
